(** * Atoma habit tracker: the [useHabits] hook and its streak calculation

    A shallow embedding of the React hook [useHabits] in its three
    versions, and of what the habit card and the dashboard compute from
    it:
    - [Cached]: the hook that keeps [allLogs] in memory and computes
      streaks client-side with [calculateStreak], [recalculateStreaks] and
      the handlers that update both log caches;
    - [Simple]: [src/hooks/useHabits.ts], which keeps only today's logs;
    - [Trigger]: the hook that reads streaks the store maintains and
      fetches the habits again after each mark and unmark;
    - [Card] and [Dashboard]: the card's toggle, the lists of habits due
      today and not, the progress numbers and the best streak.

    The remote store (Supabase) and the browser clock are outside the
    repository.  A handler is therefore a [Task]: a tree of state setters,
    notifications and awaited requests whose answers come from a [Remote],
    and the clock is an [Env]. *)

From Stdlib Require Import List String Ascii ZArith Lia Bool Arith.
From Stdlib Require Import Permutation Sorted OrderedTypeEx.
Import ListNotations.

Local Open Scope string_scope.
Local Open Scope list_scope.

(** ** JavaScript array helpers on strings *)

Module Js.

(** [Array.prototype.sort()] without a comparator orders strings by code
    unit, ascending.  The engine's algorithm is not part of the program; any
    sort returns the one ascending arrangement ([sort_unique] below), so an
    insertion sort stands for it. *)
Fixpoint insert (x : string) (l : list string) : list string :=
  match l with
  | [] => [x]
  | y :: l' => if String.leb x y then x :: l else y :: insert x l'
  end.

Definition sort (l : list string) : list string := fold_right insert [] l.

Definition ascending : list string -> Prop :=
  StronglySorted (fun a b => String.leb a b = true).

Definition descending : list string -> Prop :=
  StronglySorted (fun a b => String.leb b a = true).

End Js.

(** ** Rows of the two tables *)

(** [type Habit]; [streak] is the optional client-side field. *)
Record Habit := mkHabit {
  id : string;
  title : string;
  description : option string;
  frequency : string;
  created_at : string;
  user_id : string;
  streak : option nat
}.

(** [type HabitLog] *)
Record HabitLog := mkLog {
  log_id : string;
  habit_id : string;
  log_user_id : string;
  completed_date : string
}.

(** The form payload of [handleCreate] and [handleUpdate]. *)
Record FormData := mkForm {
  form_title : string;
  form_description : string;
  form_frequency : string
}.

(** ** The clock *)

(** What the handlers read from [Date] and from the hook's argument:
    - [today]: [new Date().toISOString().split("T")[0]];
    - [checkDate]: [getTime()] of [new Date()] after [setHours(0,0,0,0)];
    - [getTime d]: [new Date(d + "T00:00:00").getTime()], [None] for [NaN];
    - [currentUserId]: the hook's argument. *)
Record Env := mkEnv {
  today : string;
  checkDate : Z;
  getTime : string -> option Z;
  currentUserId : option string
}.

(** ** calculateStreak

    The [useCallback] of the hook with the log cache. *)

(** [Math.floor((checkDate.getTime() - logDate.getTime()) / (1000*60*60*24))];
    [Z.div] rounds towards minus infinity, as [Math.floor] does. *)
Definition daysDiff (e : Env) (d : string) : option Z :=
  match getTime e d with
  | Some logDate => Some ((checkDate e - logDate) / (1000 * 60 * 60 * 24))%Z
  | None => None
  end.

(** The [for] loop: [streak] grows while the next date is [streak] days ago;
    the first other date (or [NaN]) breaks. *)
Fixpoint streakLoop (e : Env) (habitLogs : list string) (streak : nat) : nat :=
  match habitLogs with
  | [] => streak
  | d :: rest =>
      match daysDiff e d with
      | Some diff =>
          if (diff =? Z.of_nat streak)%Z
          then streakLoop e rest (S streak)
          else streak
      | None => streak
      end
  end.

(** The dates of one habit, newest first:
    [logs.filter(..).map(..).sort().reverse()]. *)
Definition habitDates (habitId : string) (logs : list HabitLog) : list string :=
  map completed_date (filter (fun log => habit_id log =? habitId) logs).

Definition calculateStreak (e : Env) (habitId : string) (logs : list HabitLog)
  : nat :=
  let habitLogs := rev (Js.sort (habitDates habitId logs)) in
  match habitLogs with
  | [] => 0
  | _ => streakLoop e habitLogs 0
  end.

(** ** A clock instance: UTC, well-formed [YYYY-MM-DD] *)

Module Utc.

Definition digit (c : ascii) : option Z :=
  let n := Z.of_nat (nat_of_ascii c) in
  if ((48 <=? n) && (n <=? 57))%Z then Some (n - 48)%Z else None.

Fixpoint number (acc : Z) (cs : list ascii) : option Z :=
  match cs with
  | [] => Some acc
  | c :: cs' =>
      match digit c with
      | Some v => number (10 * acc + v)%Z cs'
      | None => None
      end
  end.

(** Days since 1970-01-01 of a proleptic Gregorian date. *)
Definition days_from_civil (y m d : Z) : Z :=
  (let y' := if m <=? 2 then y - 1 else y in
   let era := y' / 400 in
   let yoe := y' - era * 400 in
   let mp := (m + 9) mod 12 in
   let doy := (153 * mp + 2) / 5 + d - 1 in
   let doe := yoe * 365 + yoe / 4 - yoe / 100 + doy in
   era * 146097 + doe - 719468)%Z.

(** Milliseconds since the epoch of midnight of a [YYYY-MM-DD] date. *)
Definition midnightOf (s : string) : option Z :=
  match list_ascii_of_string s with
  | [y1; y2; y3; y4; "-"%char; m1; m2; "-"%char; d1; d2] =>
      match number 0 [y1; y2; y3; y4], number 0 [m1; m2], number 0 [d1; d2] with
      | Some y, Some m, Some d =>
          if ((1 <=? m) && (m <=? 12) && (1 <=? d) && (d <=? 31))%Z
          then Some (days_from_civil y m d * 86400000)
          else None
      | _, _, _ => None
      end
  | _ => None
  end%Z.

(** The clock of a user in UTC on the day [d]. *)
Definition env (d : string) (user : option string) : Env :=
  {| today := d;
     checkDate := match midnightOf d with Some t => t | None => 0%Z end;
     getTime := midnightOf;
     currentUserId := user |}.

End Utc.

(** ** Handlers as tasks *)

(** The [{ data, error }] pair of a Supabase call; [code] is [error.code]. *)
Inductive Result (A : Type) : Type :=
| Ok (data : A)
| Err (code : string).
Arguments Ok {A} data.
Arguments Err {A} code.

(** What a handler awaits, indexed by what the await yields.  An insert with
    [.select()] yields the inserted row ([data[0]] in the handlers);
    [GetUser] is [supabase.auth.getUser()] and yields the user's id;
    [Confirm] is the browser's blocking [confirm] dialog. *)
Inductive Request : Type -> Type :=
| GetUser : Request (option string)
| SelectHabits (user : string) : Request (Result (list Habit))
| SelectLogs (user : string) : Request (Result (list HabitLog))
| SelectLogsOn (user date : string) : Request (Result (list HabitLog))
| InsertLog (habit : string) (user : option string) (date : string)
  : Request (Result HabitLog)
| DeleteLog (habit : string) (user : option string) (date : string)
  : Request (Result unit)
| InsertHabit (form : FormData) (user : string) : Request (Result Habit)
| UpdateHabit (habit : string) (form : FormData) : Request (Result Habit)
| DeleteHabit (habit : string) : Request (Result unit)
| Confirm (message : string) : Request bool.

Inductive Effect : Type :=
| Alert (message : string)
| ConsoleError (message : string).

(** A handler body over hook state [S] with result [R]: state setters,
    notifications and awaits, in program order. *)
Inductive Task (S R : Type) : Type :=
| Return (r : R)
| Update (f : S -> S) (k : Task S R)
| Notify (e : Effect) (k : Task S R)
| Await {A : Type} (req : Request A) (k : A -> Task S R).
Arguments Return {S R} r.
Arguments Update {S R} f k.
Arguments Notify {S R} e k.
Arguments Await {S R A} req k.

Notation "step ;; k" := (step k)
  (at level 61, right associativity, only parsing).

Fixpoint bind {S R R' : Type} (t : Task S R) (k : R -> Task S R')
  : Task S R' :=
  match t with
  | Return r => k r
  | Update f t' => Update f (bind t' k)
  | Notify e t' => Notify e (bind t' k)
  | Await req t' => Await req (fun a => bind (t' a) k)
  end.

Definition Call : Type := { A : Type & Request A }.
Definition call {A : Type} (req : Request A) : Call := existT _ A req.

(** What can be observed of a run: the hook's state, what was shown to the
    user or logged, and the requests dispatched so far. *)
Record World (S : Type) : Type := mkWorld {
  hook : S;
  effects : list Effect;
  sent : list Call
}.
Arguments mkWorld {S} hook effects sent.
Arguments hook {S} w.
Arguments effects {S} w.
Arguments sent {S} w.

Definition world {S : Type} (st : S) : World S := mkWorld st [] [].

Definition update {S : Type} (f : S -> S) (w : World S) : World S :=
  mkWorld (f (hook w)) (effects w) (sent w).
Definition notify {S : Type} (e : Effect) (w : World S) : World S :=
  mkWorld (hook w) (effects w ++ [e]) (sent w).
Definition dispatch {S A : Type} (req : Request A) (w : World S) : World S :=
  mkWorld (hook w) (effects w) (sent w ++ [call req]).

(** The world seen by the answers of the outside: one answer per request. *)
Definition Remote : Type := forall A : Type, Request A -> A.

(** The handler runs to its end, each await resolved by [remote]. *)
Fixpoint run {S R : Type} (remote : Remote) (t : Task S R) (w : World S)
  : World S :=
  match t with
  | Return _ => w
  | Update f k => run remote k (update f w)
  | Notify e k => run remote k (notify e w)
  | Await req k => run remote (k (remote _ req)) (dispatch req w)
  end.

(** The handler runs up to its first await: the request is dispatched and
    nothing has resolved yet. *)
Fixpoint suspend {S R : Type} (t : Task S R) (w : World S) : World S :=
  match t with
  | Return _ => w
  | Update f k => suspend k (update f w)
  | Notify e k => suspend k (notify e w)
  | Await req _ => dispatch req w
  end.

(** A remote that refuses everything, and one exception to it. *)
Definition offline : Remote := fun A req =>
  match req in Request T return T with
  | GetUser => None
  | SelectHabits _ => Err "offline"
  | SelectLogs _ => Err "offline"
  | SelectLogsOn _ _ => Err "offline"
  | InsertLog _ _ _ => Err "offline"
  | DeleteLog _ _ _ => Err "offline"
  | InsertHabit _ _ => Err "offline"
  | UpdateHabit _ _ => Err "offline"
  | DeleteHabit _ => Err "offline"
  | Confirm _ => false
  end.


Definition withStreak (habit : Habit) (n : option nat) : Habit :=
  mkHabit (id habit) (title habit) (description habit) (frequency habit)
          (created_at habit) (user_id habit) n.

(** The guard [if (!currentUserId) return]: [null] and the empty string
    are falsy; what passes is a non-empty id. *)
Definition truthy (user : option string) : option string :=
  match user with
  | Some u => if u =? "" then None else Some u
  | None => None
  end.

(** ** The hook with the in-memory log cache and client-side streaks *)

Module Cached.

Record Hook : Type := mkHook {
  habits : list Habit;
  habitLogs : list HabitLog;
  allLogs : list HabitLog;
  loading : bool
}.

(** The [useState] initial values. *)
Definition initial : Hook := mkHook [] [] [] true.

Definition setHabits (f : list Habit -> list Habit) (st : Hook) : Hook :=
  mkHook (f (habits st)) (habitLogs st) (allLogs st) (loading st).
Definition setHabitLogs (f : list HabitLog -> list HabitLog) (st : Hook)
  : Hook :=
  mkHook (habits st) (f (habitLogs st)) (allLogs st) (loading st).
Definition setAllLogs (f : list HabitLog -> list HabitLog) (st : Hook)
  : Hook :=
  mkHook (habits st) (habitLogs st) (f (allLogs st)) (loading st).
Definition setLoading (b : bool) (st : Hook) : Hook :=
  mkHook (habits st) (habitLogs st) (allLogs st) b.

(** [habitLogs.some((log) => log.habit_id === habitId)] *)
Definition isCompletedToday (st : Hook) (habitId : string) : bool :=
  existsb (fun log => habit_id log =? habitId) (habitLogs st).

(** The streak shown for a habit: the [streak] field of its entry in
    [habits], if it has one. *)
Definition streakOf (st : Hook) (habitId : string) : option (option nat) :=
  option_map streak (find (fun habit => id habit =? habitId) (habits st)).

Section Handlers.

Variable e : Env.

Definition fetchAllLogs : Task Hook (list HabitLog) :=
  match truthy (currentUserId e) with
  | None => Return []
  | Some user =>
      Await (SelectLogs user) (fun res =>
        match res with
        | Err _ => Notify (ConsoleError "Error fetching all logs:") ;; Return []
        | Ok logs => Update (setAllLogs (fun _ => logs)) ;; Return logs
        end)
  end.

Definition fetchTodaysLogs : Task Hook unit :=
  match truthy (currentUserId e) with
  | None => Return tt
  | Some user =>
      Await (SelectLogsOn user (today e)) (fun res =>
        match res with
        | Err _ =>
            Notify (ConsoleError "Error fetching today's logs:") ;; Return tt
        | Ok data => Update (setHabitLogs (fun _ => data)) ;; Return tt
        end)
  end.

(** The updater of [recalculateStreaks]: every habit's streak from
    [updatedLogs]. *)
Definition recalculateStreaks (updatedLogs : list HabitLog) : Hook -> Hook :=
  setHabits (map (fun habit =>
    withStreak habit (Some (calculateStreak e (id habit) updatedLogs)))).

Definition fetchHabitsAndCalculateStreaks : Task Hook unit :=
  Update (setLoading true) ;;
  Await GetUser (fun user =>
    match user with
    | None => Update (setLoading false) ;; Return tt
    | Some uid =>
        Await (SelectHabits uid) (fun res =>
          match res with
          | Err _ =>
              Notify (ConsoleError "Error fetching habits:") ;;
              Update (setLoading false) ;; Return tt
          | Ok habitsData =>
              bind fetchAllLogs (fun logs =>
                Update (setHabits (fun _ =>
                  map (fun habit =>
                         withStreak habit
                           (Some (calculateStreak e (id habit) logs)))
                      habitsData)) ;;
                Update (setLoading false) ;; Return tt)
          end)
    end).

(** [captured] is the state of the render whose closure the handler is:
    [allLogs] and [habits] are read from it, while the functional setters
    act on the state current when they run. *)
Definition handleMarkComplete (captured : Hook) (habitId : string)
  : Task Hook unit :=
  Await (InsertLog habitId (currentUserId e) (today e)) (fun res =>
    match res with
    | Err code =>
        if code =? "23505"
        then Notify (Alert "You've already completed this habit today!") ;;
             Return tt
        else Notify (ConsoleError "Error logging habit:") ;;
             Notify (Alert "Failed to log habit completion") ;; Return tt
    | Ok newLog =>
        Update (setHabitLogs (fun current => current ++ [newLog])) ;;
        let updatedAllLogs := newLog :: allLogs captured in
        Update (setAllLogs (fun _ => updatedAllLogs)) ;;
        Update (recalculateStreaks updatedAllLogs) ;; Return tt
    end).

Definition handleUnmarkComplete (captured : Hook) (habitId : string)
  : Task Hook unit :=
  Await (DeleteLog habitId (currentUserId e) (today e)) (fun res =>
    match res with
    | Err _ => Notify (ConsoleError "Error removing log:") ;; Return tt
    | Ok _ =>
        Update (setHabitLogs (fun current =>
          filter (fun log => negb (habit_id log =? habitId)) current)) ;;
        let updatedAllLogs :=
          filter (fun log =>
                    negb ((habit_id log =? habitId)
                          && (completed_date log =? today e)))
                 (allLogs captured) in
        Update (setAllLogs (fun _ => updatedAllLogs)) ;;
        Update (recalculateStreaks updatedAllLogs) ;; Return tt
    end).

Definition handleCreate (captured : Hook) (formData : FormData)
  : Task Hook unit :=
  Await GetUser (fun user =>
    match user with
    | None =>
        Notify (Alert "You must be logged in to create a habit") ;; Return tt
    | Some uid =>
        Await (InsertHabit formData uid) (fun res =>
          match res with
          | Err _ =>
              Notify (ConsoleError "Error creating habit:") ;;
              Notify (Alert "Failed to create habit") ;; Return tt
          | Ok row =>
              let newHabit := withStreak row (Some 0) in
              Update (setHabits (fun _ => newHabit :: habits captured)) ;;
              Return tt
          end)
    end).

Definition handleUpdate (editingId : string) (formData : FormData)
  : Task Hook unit :=
  Await (UpdateHabit editingId formData) (fun res =>
    match res with
    | Err _ =>
        Notify (ConsoleError "Error updating habit:") ;;
        Notify (Alert "Failed to update habit") ;; Return tt
    | Ok row =>
        Update (setHabits (map (fun h =>
          if id h =? editingId then withStreak row (streak h) else h))) ;;
        Return tt
    end).

Definition handleDelete (habitId : string) : Task Hook unit :=
  Await (Confirm
    "Are you sure? This will delete the habit and all completion logs.")
    (fun confirmed =>
      if negb confirmed then Return tt
      else
        Await (DeleteHabit habitId) (fun res =>
          match res with
          | Err _ =>
              Notify (ConsoleError "Error deleting habit:") ;;
              Notify (Alert "Failed to delete habit") ;; Return tt
          | Ok _ =>
              Update (setHabits
                (filter (fun h => negb (id h =? habitId)))) ;;
              Update (setHabitLogs
                (filter (fun log => negb (habit_id log =? habitId)))) ;;
              Update (setAllLogs
                (filter (fun log => negb (habit_id log =? habitId)))) ;;
              Return tt
          end)).

End Handlers.

End Cached.

(** Every listed habit shows the streak of the all-logs cache. *)
Definition fresh (e : Env) (st : Cached.Hook) : Prop :=
  forall h, In h (Cached.habits st) ->
            streak h = Some (calculateStreak e (id h) (Cached.allLogs st)).

(** ** [src/hooks/useHabits.ts]: today's logs only, no streaks *)

Module Simple.

Record Hook : Type := mkHook {
  habits : list Habit;
  habitLogs : list HabitLog;
  loading : bool
}.

Definition initial : Hook := mkHook [] [] true.

Definition setHabits (v : list Habit) (st : Hook) : Hook :=
  mkHook v (habitLogs st) (loading st).
Definition setHabitLogs (v : list HabitLog) (st : Hook) : Hook :=
  mkHook (habits st) v (loading st).

Definition isCompletedToday (st : Hook) (habitId : string) : bool :=
  existsb (fun log => habit_id log =? habitId) (habitLogs st).

Section Handlers.

Variable e : Env.

(** Every setter here is given a value computed from the captured
    render's state. *)
Definition handleMarkComplete (captured : Hook) (habitId : string)
  : Task Hook unit :=
  Await (InsertLog habitId (currentUserId e) (today e)) (fun res =>
    match res with
    | Err code =>
        if code =? "23505"
        then Notify (Alert "You've already completed this habit today!") ;;
             Return tt
        else Notify (ConsoleError "Error logging habit:") ;;
             Notify (Alert "Failed to log habit completion") ;; Return tt
    | Ok row =>
        Update (setHabitLogs (habitLogs captured ++ [row])) ;; Return tt
    end).

Definition handleUnmarkComplete (captured : Hook) (habitId : string)
  : Task Hook unit :=
  Await (DeleteLog habitId (currentUserId e) (today e)) (fun res =>
    match res with
    | Err _ => Notify (ConsoleError "Error removing log:") ;; Return tt
    | Ok _ =>
        Update (setHabitLogs
          (filter (fun log => negb (habit_id log =? habitId))
                  (habitLogs captured))) ;;
        Return tt
    end).

Definition handleCreate (captured : Hook) (formData : FormData)
  : Task Hook unit :=
  Await GetUser (fun user =>
    match user with
    | None =>
        Notify (Alert "You must be logged in to create a habit") ;; Return tt
    | Some uid =>
        Await (InsertHabit formData uid) (fun res =>
          match res with
          | Err _ =>
              Notify (ConsoleError "Error creating habit:") ;;
              Notify (Alert "Failed to create habit") ;; Return tt
          | Ok row => Update (setHabits (row :: habits captured)) ;; Return tt
          end)
    end).

Definition handleUpdate (captured : Hook) (editingId : string)
  (formData : FormData) : Task Hook unit :=
  Await (UpdateHabit editingId formData) (fun res =>
    match res with
    | Err _ =>
        Notify (ConsoleError "Error updating habit:") ;;
        Notify (Alert "Failed to update habit") ;; Return tt
    | Ok row =>
        Update (setHabits
          (map (fun h => if id h =? editingId then row else h)
               (habits captured))) ;;
        Return tt
    end).

Definition handleDelete (captured : Hook) (habitId : string)
  : Task Hook unit :=
  Await (Confirm "Are you sure you want to delete this habit?")
    (fun confirmed =>
      if negb confirmed then Return tt
      else
        Await (DeleteHabit habitId) (fun res =>
          match res with
          | Err _ =>
              Notify (ConsoleError "Error deleting habit:") ;;
              Notify (Alert "Failed to delete habit") ;; Return tt
          | Ok _ =>
              Update (setHabits
                (filter (fun h => negb (id h =? habitId))
                        (habits captured))) ;;
              Return tt
          end)).

End Handlers.

End Simple.

(** ** The [habit_logs] table *)

Module Store.

Definition sameKey (habit date : string) (row : HabitLog) : bool :=
  (habit_id row =? habit) && (completed_date row =? date).

Definition count (habit date : string) (table : list HabitLog) : nat :=
  List.length (filter (sameKey habit date) table).

(** Modelled from the spec: the Remote Store Adapter's insert of a
    completion record, which is not part of the sources.  The store enforces
    at most one record per (habit id, completion date) and reports a
    violation as a failure distinguishable from all others; the handlers
    test for the code "23505", and the schema in the repository's notes
    declares [UNIQUE(habit_id, completed_date)] and [user_id ... NOT NULL]
    (code "23502").  [newId] is the identifier the store gives the row. *)
Definition insert (newId : string) (table : list HabitLog)
  (habit : string) (user : option string) (date : string)
  : Result HabitLog * list HabitLog :=
  match user with
  | None => (Err "23502", table)
  | Some u =>
      if existsb (sameKey habit date) table
      then (Err "23505", table)
      else
        let row := mkLog newId habit u date in
        (Ok row, table ++ [row])
  end.

(** The table respects its uniqueness constraint. *)
Definition unique (table : list HabitLog) : Prop :=
  forall habit date, count habit date table <= 1.

End Store.

(** ** Consecutive days *)

(** [ds] holds at position [n] a date that the code's day count
    ([daysDiff]) places [from + n] days before today. *)
Fixpoint consecutiveFrom (e : Env) (from : nat) (ds : list string) : Prop :=
  match ds with
  | [] => True
  | d :: rest =>
      daysDiff e d = Some (Z.of_nat from) /\ consecutiveFrom e (S from) rest
  end.

(** An unbroken run of days ending today in that count, newest first,
    written as [YYYY-MM-DD] strings, whose string order is their calendar
    order. *)
Definition runEndingToday (e : Env) (ds : list string) : Prop :=
  consecutiveFrom e 0 ds /\ Js.descending ds.

(** ** Scenarios *)

Definition log (h d : string) : HabitLog :=
  {| log_id := h ++ "@" ++ d; habit_id := h; log_user_id := "u1";
     completed_date := d |}.

Definition habit (h : string) (s : option nat) : Habit :=
  {| id := h; title := "Morning Run"; description := None;
     frequency := "daily"; created_at := "2025-11-01T08:00:00";
     user_id := "u1"; streak := s |}.

(** Two days in December for a user in UTC. *)
Definition dec1 : Env := Utc.env "2025-12-01" (Some "u1").
Definition dec2 : Env := Utc.env "2025-12-02" (Some "u1").

(** Scenario A: completed yesterday and the day before, not today. *)
Definition scenarioA : list HabitLog :=
  [log "h1" "2025-12-01"; log "h1" "2025-11-30"].

(** A store that accepts every request of the signed-in user "u1" and
    holds [table] and the habit "h1". *)
Definition accepting (table : list HabitLog) : Remote := fun A req =>
  match req in Request T return T with
  | GetUser => Some "u1"
  | SelectHabits _ => Ok [habit "h1" None]
  | SelectLogs _ => Ok table
  | SelectLogsOn _ date =>
      Ok (filter (fun row => completed_date row =? date) table)
  | InsertLog h u d => fst (Store.insert (h ++ "@" ++ d) table h u d)
  | DeleteLog _ _ _ => Ok tt
  | InsertHabit form u =>
      Ok (mkHabit "h2" (form_title form) (Some (form_description form))
                  (form_frequency form) "2025-12-02T09:00:00" u None)
  | UpdateHabit h form =>
      Ok (mkHabit h (form_title form) (Some (form_description form))
                  (form_frequency form) "2025-11-01T08:00:00" "u1" None)
  | DeleteHabit _ => Ok tt
  | Confirm _ => true
  end.

(** Scenario C: a habit with no history. *)
Definition zeroHistory : Cached.Hook :=
  Cached.mkHook [habit "h1" (Some 0)] [] [] false.

(** The hook as it was loaded on 2025-12-01, after "h1" had been completed
    that day. *)
Definition loadedDec1 : Cached.Hook :=
  Cached.mkHook [habit "h1" (Some 1)] [log "h1" "2025-12-01"]
                [log "h1" "2025-12-01"] false.

(** A form with an empty title and a frequency outside
    daily / weekly / monthly. *)
Definition badForm : FormData := mkForm "" "" "yearly".

(** [src/hooks/useHabits.ts] holding "h1", completed today. *)
Definition simpleDone : Simple.Hook :=
  Simple.mkHook [habit "h1" None] [log "h1" "2025-12-02"] false.

(** Local midnights in New York between the clock changes of 2024-11-03
    and 2025-11-02, for well-formed dates of that span: five hours after
    the UTC midnight up to 2025-03-09, the day that lasts 23 hours, and
    four hours after it from 2025-03-10 on. *)
Module NewYork.

Definition midnightOf (s : string) : option Z :=
  match Utc.midnightOf s with
  | Some t =>
      if (t <=? Utc.days_from_civil 2025 3 9 * 86400000)%Z
      then Some (t + 5 * 3600000)%Z
      else Some (t + 4 * 3600000)%Z
  | None => None
  end.

(** The clock of a user in New York on the day [d]. *)
Definition env (d : string) (user : option string) : Env :=
  {| today := d;
     checkDate := match midnightOf d with Some t => t | None => 0%Z end;
     getTime := midnightOf;
     currentUserId := user |}.

End NewYork.

(** The two days after the clocks went forward. *)
Definition mar10 : Env := NewYork.env "2025-03-10" (Some "u1").
Definition mar11 : Env := NewYork.env "2025-03-11" (Some "u1").

(** Three days in a row ending on 2025-03-10. *)
Definition springRun : list HabitLog :=
  [log "h1" "2025-03-10"; log "h1" "2025-03-09"; log "h1" "2025-03-08"].

(** The mount effect: [if (currentUserId)], the two fetches, here one
    after the other.  They update disjoint parts of the state, so their
    interleaving does not matter. *)
Definition mount (e : Env) : Task Cached.Hook unit :=
  match truthy (currentUserId e) with
  | None => Return tt
  | Some _ =>
      bind (Cached.fetchHabitsAndCalculateStreaks e)
           (fun _ => Cached.fetchTodaysLogs e)
  end.

(** The next day, without a reload: "h1" is marked, then unmarked, and the
    store serves both requests. *)
Definition markedDec2 : World Cached.Hook :=
  run (accepting [log "h1" "2025-12-01"])
      (Cached.handleMarkComplete dec2 loadedDec1 "h1") (world loadedDec1).


(** Scenario C while the insert is pending. *)
Definition pendingMark : World Cached.Hook :=
  suspend (Cached.handleMarkComplete dec2 zeroHistory "h1")
          (world zeroHistory).

(** [badForm] submitted by a signed-in user. *)
Definition createdBad : World Cached.Hook :=
  run (accepting []) (Cached.handleCreate zeroHistory badForm)
      (world zeroHistory).

(** "h1" deleted, confirmed by the user and by the store. *)
Definition deletedSimple : World Simple.Hook :=
  run (accepting []) (Simple.handleDelete simpleDone "h1") (world simpleDone).

(** The user's answer to the confirm dialog, over any remote. *)
Definition onConfirm (answer : bool) (o : Remote) : Remote :=
  fun A req =>
  match req in Request T return T with
  | Confirm _ => answer
  | other => o _ other
  end.

(** ** The callers: the habit card and the dashboard *)

Module Card.

(** [handleToggleComplete] of [HabitCard]: a click undoes a completed
    habit and completes any other. *)
Definition handleToggleComplete {T : Type} (isCompleted : bool)
  (habitId : string) (onMarkComplete onUnmarkComplete : string -> T) : T :=
  if isCompleted then onUnmarkComplete habitId else onMarkComplete habitId.

End Card.

(** The card as the dashboard mounts it on either hook:
    [isCompleted={isCompletedToday(habit.id)}],
    [onMarkComplete={handleMarkComplete}],
    [onUnmarkComplete={handleUnmarkComplete}]. *)
Definition cachedToggle (e : Env) (st : Cached.Hook) (habitId : string)
  : Task Cached.Hook unit :=
  Card.handleToggleComplete (Cached.isCompletedToday st habitId) habitId
    (Cached.handleMarkComplete e st) (Cached.handleUnmarkComplete e st).

Definition simpleToggle (e : Env) (st : Simple.Hook) (habitId : string)
  : Task Simple.Hook unit :=
  Card.handleToggleComplete (Simple.isCompletedToday st habitId) habitId
    (Simple.handleMarkComplete e st) (Simple.handleUnmarkComplete e st).

Module Dashboard.

(** The dashboard's [Habit], with the streak columns of the store. *)
Record Habit : Type := mkHabit {
  id : string;
  title : string;
  description : option string;
  frequency : string;
  created_at : string;
  user_id : string;
  current_streak : Z;
  last_completed : option string
}.

(** What [isHabitDueToday] reads from [new Date()]: [getDay()]
    (0 is Sunday), [getDate()], and the [getDate()] of day 0 of the next
    month, the last day of this one. *)
Record Calendar : Type := mkCalendar {
  dayOfTheWeek : Z;
  dayOfTheMonth : Z;
  lastDayofTheMonth : Z
}.

(** [String.prototype.toLowerCase] on the ASCII strings the form's
    frequency options are: A to Z become a to z. *)
Definition lowerChar (c : ascii) : ascii :=
  let n := nat_of_ascii c in
  if (65 <=? n)%nat && (n <=? 90)%nat then ascii_of_nat (n + 32) else c.

Fixpoint toLowerCase (s : string) : string :=
  match s with
  | EmptyString => EmptyString
  | String c s' => String (lowerChar c) (toLowerCase s')
  end.

(** What the page shows where the habits due today go: a loading note,
    "Create your first habit to get started!", "Great work! Come back
    tomorrow to keep your streaks going.", or one card per habit. *)
Inductive Panel : Type :=
| Loading
| CreateFirst
| GreatWork
| Cards (cards : list Habit).

Section View.

Variable cal : Calendar.
(** The hook's [loading], [isCompletedToday] and [habits]. *)
Variable loading : bool.
Variable isCompletedToday : string -> bool.
Variable habits : list Habit.

Definition isHabitDueToday (habit : Habit) : bool :=
  let f := toLowerCase (frequency habit) in
  if f =? "daily" then true
  else if f =? "weekly" then (dayOfTheWeek cal =? 0)%Z
  else if f =? "monthly" then (dayOfTheMonth cal =? lastDayofTheMonth cal)%Z
  else true.

Definition todaysHabits : list Habit :=
  filter (fun h => isHabitDueToday h) habits.
Definition otherHabits : list Habit :=
  filter (fun h => negb (isHabitDueToday h)) habits.

Definition completedToday : nat :=
  List.length (filter (fun h => isCompletedToday (id h)) todaysHabits).
Definition totalToday : nat := List.length todaysHabits.

(** The habits list of the page: the nested conditional under
    "Habits List". *)
Definition panel : Panel :=
  if loading then Loading
  else if (List.length todaysHabits =? 0)%nat then CreateFirst
  else if (completedToday =? totalToday)%nat && (0 <? totalToday)%nat
       then GreatWork
       else Cards todaysHabits.

(** [Math.max(...habits.map((h) => h.current_streak))], guarded by
    [habits.length > 0]. *)
Definition bestStreak : Z :=
  match map current_streak habits with
  | [] => 0%Z
  | x :: xs => fold_left Z.max xs x
  end.

Definition bestStreakHabit : option Habit :=
  find (fun h => (current_streak h =? bestStreak)%Z) habits.

End View.

End Dashboard.

(** ** The hook that reads the streaks the store maintains *)

Module Trigger.

(** The requests of this hook; its habits are rows with [current_streak]
    and [last_completed], and its insert of a habit sets both. *)
Inductive Request : Type -> Type :=
| SelectHabits (user : string) : Request (Result (list Dashboard.Habit))
| SelectLogsOn (user date : string) : Request (Result (list HabitLog))
| InsertLog (habit user date : string) : Request (Result HabitLog)
| DeleteLog (habit user date : string) : Request (Result unit)
| InsertHabit (form : FormData) (user : string) (current_streak : Z)
    (last_completed : option string) : Request (Result Dashboard.Habit)
| UpdateHabit (habit : string) (form : FormData)
  : Request (Result Dashboard.Habit)
| DeleteHabit (habit : string) : Request (Result unit)
| Confirm (message : string) : Request bool.

Inductive Task (S R : Type) : Type :=
| Return (r : R)
| Update (f : S -> S) (k : Task S R)
| Notify (e : Effect) (k : Task S R)
| Await {A : Type} (req : Request A) (k : A -> Task S R).
Arguments Return {S R} r.
Arguments Update {S R} f k.
Arguments Notify {S R} e k.
Arguments Await {S R A} req k.

Fixpoint bind {S R R' : Type} (t : Task S R) (k : R -> Task S R')
  : Task S R' :=
  match t with
  | Return r => k r
  | Update f t' => Update f (bind t' k)
  | Notify e t' => Notify e (bind t' k)
  | Await req t' => Await req (fun a => bind (t' a) k)
  end.

Definition Remote : Type := forall A : Type, Request A -> A.

Definition Call : Type := { A : Type & Request A }.
Definition call {A : Type} (req : Request A) : Call := existT _ A req.

(** A run's observations: the hook's state, what was shown or logged, and
    the requests dispatched. *)
Record World (S : Type) : Type := mkWorld {
  hook : S;
  effects : list Effect;
  sent : list Call
}.
Arguments mkWorld {S} hook effects sent.
Arguments hook {S} w.
Arguments effects {S} w.
Arguments sent {S} w.

Definition world {S : Type} (st : S) : World S := mkWorld st [] [].

Fixpoint run {S R : Type} (remote : Remote) (t : Task S R) (w : World S)
  : World S :=
  match t with
  | Return _ => w
  | Update f k => run remote k (mkWorld (f (hook w)) (effects w) (sent w))
  | Notify e k => run remote k (mkWorld (hook w) (effects w ++ [e]) (sent w))
  | Await req k =>
      run remote (k (remote _ req))
          (mkWorld (hook w) (effects w) (sent w ++ [call req]))
  end.

Record Hook : Type := mkHook {
  habits : list Dashboard.Habit;
  habitLogs : list HabitLog;
  loading : bool
}.

Definition setHabits (f : list Dashboard.Habit -> list Dashboard.Habit)
  (st : Hook) : Hook :=
  mkHook (f (habits st)) (habitLogs st) (loading st).
Definition setHabitLogs (f : list HabitLog -> list HabitLog) (st : Hook)
  : Hook :=
  mkHook (habits st) (f (habitLogs st)) (loading st).
Definition setLoading (b : bool) (st : Hook) : Hook :=
  mkHook (habits st) (habitLogs st) b.

Definition isCompletedToday (st : Hook) (habitId : string) : bool :=
  existsb (fun log => habit_id log =? habitId) (habitLogs st).

Section Handlers.

Variable e : Env.

Definition signedIn : option string := truthy (currentUserId e).

Definition fetchHabits : Task Hook unit :=
  match signedIn with
  | None => Return tt
  | Some user =>
      Update (setLoading true) ;;
      Await (SelectHabits user) (fun res =>
        match res with
        | Err _ =>
            Notify (ConsoleError "Error fetching habits:") ;;
            Update (setLoading false) ;; Return tt
        | Ok data =>
            Update (setHabits (fun _ => data)) ;;
            Update (setLoading false) ;; Return tt
        end)
  end.

Definition fetchTodaysLogs : Task Hook unit :=
  match signedIn with
  | None => Return tt
  | Some user =>
      Await (SelectLogsOn user (today e)) (fun res =>
        match res with
        | Err _ =>
            Notify (ConsoleError "Error fetching today's logs:") ;; Return tt
        | Ok data => Update (setHabitLogs (fun _ => data)) ;; Return tt
        end)
  end.

Definition handleMarkComplete (habitId : string) : Task Hook unit :=
  match signedIn with
  | None => Return tt
  | Some user =>
      Await (InsertLog habitId user (today e)) (fun res =>
        match res with
        | Err code =>
            if code =? "23505"
            then Notify (Alert "You've already completed this habit today!") ;;
                 Return tt
            else Notify (ConsoleError "Error logging habit:") ;;
                 Notify (Alert "Failed to log habit completion") ;; Return tt
        | Ok row =>
            Update (setHabitLogs (fun current => current ++ [row])) ;;
            fetchHabits
        end)
  end.

Definition handleUnmarkComplete (habitId : string) : Task Hook unit :=
  match signedIn with
  | None => Return tt
  | Some user =>
      Await (DeleteLog habitId user (today e)) (fun res =>
        match res with
        | Err _ => Notify (ConsoleError "Error removing log:") ;; Return tt
        | Ok _ =>
            Update (setHabitLogs (fun current =>
              filter (fun log => negb (habit_id log =? habitId)) current)) ;;
            fetchHabits
        end)
  end.

Definition handleCreate (captured : Hook) (formData : FormData)
  : Task Hook unit :=
  match signedIn with
  | None =>
      Notify (Alert "You must be logged in to create a habit") ;; Return tt
  | Some user =>
      Await (InsertHabit formData user 0 None) (fun res =>
        match res with
        | Err _ =>
            Notify (ConsoleError "Error creating habit:") ;;
            Notify (Alert "Failed to create habit") ;; Return tt
        | Ok row => Update (setHabits (fun _ => row :: habits captured)) ;;
                    Return tt
        end)
  end.

Definition handleUpdate (editingId : string) (formData : FormData)
  : Task Hook unit :=
  Await (UpdateHabit editingId formData) (fun res =>
    match res with
    | Err _ =>
        Notify (ConsoleError "Error updating habit:") ;;
        Notify (Alert "Failed to update habit") ;; Return tt
    | Ok row =>
        Update (setHabits (map (fun h =>
          if Dashboard.id h =? editingId then row else h))) ;;
        Return tt
    end).

Definition handleDelete (habitId : string) : Task Hook unit :=
  Await (Confirm
    "Are you sure? This will delete the habit and all completion logs.")
    (fun confirmed =>
      if negb confirmed then Return tt
      else
        Await (DeleteHabit habitId) (fun res =>
          match res with
          | Err _ =>
              Notify (ConsoleError "Error deleting habit:") ;;
              Notify (Alert "Failed to delete habit") ;; Return tt
          | Ok _ =>
              Update (setHabits
                (filter (fun h => negb (Dashboard.id h =? habitId)))) ;;
              Update (setHabitLogs
                (filter (fun log => negb (habit_id log =? habitId)))) ;;
              Return tt
          end)).

End Handlers.

End Trigger.

(** A habit as the dashboard has it, and a store for the hook above that
    serves every request and holds that habit, with streak [n]. *)
Definition tracked (h : string) (n : Z) : Dashboard.Habit :=
  Dashboard.mkHabit h "Morning Run" None "daily" "2025-11-01T08:00:00" "u1"
                    n (Some "2025-12-02").

Definition serving (n : Z) : Trigger.Remote := fun A req =>
  match req in Trigger.Request T return T with
  | Trigger.SelectHabits _ => Ok [tracked "h1" n]
  | Trigger.SelectLogsOn _ _ => Ok []
  | Trigger.InsertLog h u d => Ok (mkLog (h ++ "@" ++ d) h u d)
  | Trigger.DeleteLog _ _ _ => Ok tt
  | Trigger.InsertHabit form u n0 last =>
      Ok (Dashboard.mkHabit "h2" (form_title form)
                            (Some (form_description form))
                            (form_frequency form) "2025-12-02T09:00:00" u
                            n0 last)
  | Trigger.UpdateHabit h form =>
      Ok (Dashboard.mkHabit h (form_title form)
                            (Some (form_description form))
                            (form_frequency form) "2025-11-01T08:00:00" "u1"
                            n (Some "2025-12-02"))
  | Trigger.DeleteHabit _ => Ok tt
  | Trigger.Confirm _ => true
  end.

(** The hook above with "h1" listed at streak 0 and not completed. *)
Definition triggerIdle : Trigger.Hook :=
  Trigger.mkHook [tracked "h1" 0] [] false.

(** The same store refusing every insert of a log with [code]. *)
Definition refusing (code : string) : Trigger.Remote := fun A req =>
  match req in Trigger.Request T return T with
  | Trigger.InsertLog _ _ _ => Err code
  | other => serving 0 _ other
  end.

(** * Properties *)

(** ** The string order and the sort *)

Section StringOrder.

Lemma leb_cases (a b : string) :
  String.leb a b = true <-> String_as_OT.lt a b \/ a = b.
Proof.
  unfold String.leb.
  rewrite <- String_as_OT.cmp_lt, <- String_as_OT.cmp_eq.
  unfold String_as_OT.cmp.
  destruct (String.compare a b); split; intros H; auto;
    try discriminate; destruct H; discriminate.
Qed.

Lemma leb_trans (a b c : string) :
  String.leb a b = true -> String.leb b c = true -> String.leb a c = true.
Proof.
  rewrite !leb_cases.
  intros [Hab | ->] [Hbc | ->]; auto.
  left. eapply String_as_OT.lt_trans; eassumption.
Qed.

Lemma leb_false_flip (a b : string) :
  String.leb a b = false -> String.leb b a = true.
Proof.
  intros H. destruct (String.leb_total a b) as [H' | H']; congruence.
Qed.

End StringOrder.

Section Sorting.

Import Js.

Lemma insert_perm (x : string) (l : list string) :
  Permutation (insert x l) (x :: l).
Proof.
  induction l as [| y l IH]; simpl.
  - reflexivity.
  - destruct (String.leb x y).
    + reflexivity.
    + rewrite IH. apply perm_swap.
Qed.

Lemma sort_perm (l : list string) : Permutation (sort l) l.
Proof.
  induction l as [| x l IH]; simpl.
  - reflexivity.
  - rewrite insert_perm. now constructor.
Qed.

Lemma insert_ascending (x : string) (l : list string) :
  ascending l -> ascending (insert x l).
Proof.
  unfold ascending.
  induction l as [| y l IH]; simpl; intros Hl.
  - constructor; constructor.
  - destruct (String.leb x y) eqn:Hxy.
    + constructor; [assumption |].
      inversion Hl as [| ? ? _ Hall]; subst.
      constructor; [assumption |].
      eapply Forall_impl; [| exact Hall].
      intros z Hz. eapply leb_trans; eassumption.
    + inversion Hl as [| ? ? Hs Hall]; subst.
      constructor; [now apply IH |].
      eapply Permutation_Forall.
      * symmetry. apply insert_perm.
      * constructor; [now apply leb_false_flip | assumption].
Qed.

Lemma sort_ascending (l : list string) : ascending (sort l).
Proof.
  induction l as [| x l IH]; simpl.
  - constructor.
  - now apply insert_ascending.
Qed.

(** A list has one ascending arrangement. *)
Lemma ascending_unique (l1 : list string) :
  forall l2, ascending l1 -> ascending l2 -> Permutation l1 l2 -> l1 = l2.
Proof.
  unfold ascending.
  induction l1 as [| a l1 IH]; intros l2 H1 H2 P.
  - apply Permutation_nil in P. now subst.
  - destruct l2 as [| b l2].
    + symmetry in P. now apply Permutation_nil in P.
    + inversion H1 as [| ? ? S1 A1]; subst.
      inversion H2 as [| ? ? S2 A2]; subst.
      assert (Hab : a = b).
      { assert (Ia : In a (b :: l2))
          by (eapply Permutation_in; [exact P | now left]).
        assert (Ib : In b (a :: l1))
          by (eapply Permutation_in; [symmetry; exact P | now left]).
        rewrite Forall_forall in A1, A2.
        destruct Ia as [-> | Ia]; [reflexivity |].
        destruct Ib as [<- | Ib]; [reflexivity |].
        apply String.leb_antisym; auto. }
      subst b. f_equal.
      apply IH; try assumption.
      now apply Permutation_cons_inv in P.
Qed.

(** Whatever algorithm sorts, it returns what [sort] returns. *)
Lemma sort_unique (l l' : list string) :
  Permutation l l' -> ascending l' -> sort l = l'.
Proof.
  intros P A. apply ascending_unique.
  - apply sort_ascending.
  - exact A.
  - now rewrite sort_perm.
Qed.

Lemma sort_permutation (l1 l2 : list string) :
  Permutation l1 l2 -> sort l1 = sort l2.
Proof.
  intros P. apply sort_unique; [| apply sort_ascending].
  now rewrite sort_perm.
Qed.

Lemma descending_app_one (l : list string) (x : string) :
  ascending l -> Forall (fun y => String.leb y x = true) l ->
  ascending (l ++ [x]).
Proof.
  unfold ascending.
  induction l as [| y l IH]; simpl; intros A F.
  - constructor; constructor.
  - inversion A as [| ? ? S Hall]; subst.
    inversion F as [| ? ? Hy Fl]; subst.
    constructor; [now apply IH |].
    apply Forall_app. split; [assumption | now constructor].
Qed.

Lemma descending_rev (l : list string) : descending l -> ascending (rev l).
Proof.
  unfold descending.
  induction l as [| x l IH]; simpl; intros D.
  - constructor.
  - inversion D as [| ? ? S Hall]; subst.
    apply descending_app_one; [now apply IH |].
    apply Forall_rev. exact Hall.
Qed.

(** Sorting and reversing a newest-first list of distinct [YYYY-MM-DD]
    strings, in whatever order it came, gives it back. *)
Lemma rev_sort_descending (l ds : list string) :
  Permutation l ds -> descending ds -> rev (sort l) = ds.
Proof.
  intros P D.
  rewrite (sort_unique l (rev ds)).
  - apply rev_involutive.
  - rewrite P. apply Permutation_rev.
  - now apply descending_rev.
Qed.

End Sorting.

(** ** The streak *)

Section Streak.

Variable e : Env.

Lemma habitDates_perm (habitId : string) (l1 l2 : list HabitLog) :
  Permutation l1 l2 ->
  Permutation (habitDates habitId l1) (habitDates habitId l2).
Proof.
  intros P. unfold habitDates.
  apply Permutation_map.
  induction P; simpl.
  - constructor.
  - destruct (habit_id x =? habitId); [now constructor | assumption].
  - destruct (habit_id x =? habitId), (habit_id y =? habitId);
      try reflexivity; apply perm_swap.
  - etransitivity; eassumption.
Qed.

Lemma in_habitDates (habitId d : string) (logs : list HabitLog) :
  In d (habitDates habitId logs) <->
  exists l, In l logs /\ habit_id l = habitId /\ completed_date l = d.
Proof.
  unfold habitDates. rewrite in_map_iff. split.
  - intros (l & Hd & Hin). apply filter_In in Hin as [Hin Hh].
    apply String.eqb_eq in Hh. now exists l.
  - intros (l & Hin & Hh & Hd). exists l. split; [assumption |].
    apply filter_In. split; [assumption |]. now apply String.eqb_eq.
Qed.

(** The loop counts a run to its end. *)
Lemma streakLoop_consecutive (ds : list string) :
  forall n, consecutiveFrom e n ds ->
            streakLoop e ds n = n + List.length ds.
Proof.
  induction ds as [| d ds IH]; simpl; intros n H.
  - lia.
  - destruct H as [Hd Hrest]. rewrite Hd, Z.eqb_refl.
    rewrite (IH _ Hrest). lia.
Qed.

(** The loop stops at once when the newest date is not today. *)
Lemma streakLoop_head (d : string) (ds : list string) :
  daysDiff e d <> Some 0%Z -> streakLoop e (d :: ds) 0 = 0.
Proof.
  simpl. intros H. destruct (daysDiff e d) as [diff |]; [| reflexivity].
  destruct (Z.eqb_spec diff 0); [| reflexivity].
  subst. now contradiction H.
Qed.

Lemma calculateStreak_dates (habitId : string) (logs : list HabitLog) :
  calculateStreak e habitId logs =
  streakLoop e (rev (Js.sort (habitDates habitId logs))) 0.
Proof.
  unfold calculateStreak.
  now destruct (rev (Js.sort (habitDates habitId logs))).
Qed.

(** Without a date of the habit that is 0 days ago, the walk ends where
    it starts. *)
Lemma streak_without_today (habitId : string) (logs : list HabitLog) :
  (forall l, In l logs -> habit_id l = habitId ->
             daysDiff e (completed_date l) <> Some 0%Z) ->
  calculateStreak e habitId logs = 0.
Proof.
  intros Hno. rewrite calculateStreak_dates.
  destruct (rev (Js.sort (habitDates habitId logs))) as [| d ds] eqn:E.
  - reflexivity.
  - apply streakLoop_head.
    assert (Hin : In d (habitDates habitId logs)).
    { eapply Permutation_in; [apply sort_perm |].
      apply in_rev. rewrite E. now left. }
    apply in_habitDates in Hin as (l & Hl & Hh & <-).
    now apply Hno.
Qed.

(** A run ending today is counted in full. *)
Lemma streak_of_run (habitId : string) (logs : list HabitLog)
  (ds : list string) :
  Permutation (habitDates habitId logs) ds ->
  runEndingToday e ds ->
  calculateStreak e habitId logs = List.length ds.
Proof.
  intros P [C D]. rewrite calculateStreak_dates.
  rewrite (rev_sort_descending _ ds P D).
  now rewrite (streakLoop_consecutive ds 0 C).
Qed.

(** The streak is a function of the multiset of the habit's dates. *)
Lemma streak_of_dates (habitId : string) (l1 l2 : list HabitLog) :
  Permutation (habitDates habitId l1) (habitDates habitId l2) ->
  calculateStreak e habitId l1 = calculateStreak e habitId l2.
Proof.
  intros P. rewrite !calculateStreak_dates.
  now rewrite (sort_permutation _ _ P).
Qed.

End Streak.

Example days_from_civil_epoch : Utc.days_from_civil 1970 1 1 = 0%Z.
Proof. reflexivity. Qed.

Example days_from_civil_dec2 : Utc.days_from_civil 2025 12 2 = 20424%Z.
Proof. reflexivity. Qed.

Example daysDiff_dec2 :
  map (daysDiff dec2) ["2025-12-02"; "2025-12-01"; "2025-11-30"; "2025-12-03";
                       "yesterday"]
  = [Some 0; Some 1; Some 2; Some (-1); None]%Z.
Proof. vm_compute. reflexivity. Qed.

(** The example of the source's doc comment: four days in a row ending
    today give 4, whatever lies before the gap. *)
Example calculateStreak_doc :
  calculateStreak dec2 "h1"
    [log "h1" "2025-12-02"; log "h1" "2025-12-01"; log "h1" "2025-11-30";
     log "h1" "2025-11-29"; log "h1" "2025-11-27"; log "h2" "2025-11-28"] = 4.
Proof. vm_compute. reflexivity. Qed.

(** Scenario B of the specification: a gap at day-2 and nothing today. *)
Example calculateStreak_gap :
  calculateStreak dec2 "h1" [log "h1" "2025-12-01"; log "h1" "2025-11-29"] = 0.
Proof. vm_compute. reflexivity. Qed.

(** C1, as stated, fails: with yesterday and the day before completed and
    today not, [calculateStreak] returns 0 and not 2. *)
Lemma calculateStreak_scenarioA :
  habitDates "h1" scenarioA = ["2025-12-01"; "2025-11-30"] /\
  map (daysDiff dec2) (habitDates "h1" scenarioA) = [Some 1%Z; Some 2%Z] /\
  calculateStreak dec2 "h1" scenarioA = 0 /\
  calculateStreak dec2 "h1" scenarioA <> 2.
Proof. vm_compute. repeat split; discriminate. Qed.

(** C1, amended: when no completion date of the habit is 0 days before
    today in the code's own day count ([daysDiff]: the floor of the
    milliseconds between the date's local midnight and today's, over 24
    hours), the streak computation returns 0, whatever run ends at the
    most recent completed day: the walk starts at today and stops at the
    first missing day.  A habit whose completions lie 1 and 2 days back in
    that count and none 0 days back has streak 0, not 2. *)
Theorem calculateStreak_today_missing
  (e : Env) (habitId : string) (logs : list HabitLog) :
  (forall l, In l logs -> habit_id l = habitId ->
             daysDiff e (completed_date l) <> Some 0%Z) ->
  calculateStreak e habitId logs = 0.
Proof. apply streak_without_today. Qed.

Lemma calculateStreak_today_missing_witness :
  calculateStreak dec2 "h1" scenarioA = 0.
Proof.
  apply calculateStreak_today_missing.
  intros l [<- | [<- | []]] _; vm_compute; discriminate.
Defined.

(** Where the code does count a run in full: when its day count
    ([daysDiff]) places the k-th newest date of the habit k days back, as
    on a clock whose days all last 24 hours, [calculateStreak] returns
    the number of dates, in whatever order the logs arrive and among
    whatever logs of other habits; and with no completion date of the
    habit at all it returns 0. *)
Theorem calculateStreak_run
  (e : Env) (habitId : string) (logs : list HabitLog) :
  (forall ds, Permutation (habitDates habitId logs) ds ->
              runEndingToday e ds ->
              calculateStreak e habitId logs = List.length ds) /\
  ((forall l, In l logs -> habit_id l <> habitId) ->
   calculateStreak e habitId logs = 0).
Proof.
  split.
  - intros ds. apply streak_of_run.
  - intros Hnone. apply streak_without_today.
    intros l Hl Hh. now apply Hnone in Hl.
Qed.

Lemma calculateStreak_run_witness :
  calculateStreak dec2 "h1"
    [log "h1" "2025-12-01"; log "h2" "2025-11-28"; log "h1" "2025-12-02";
     log "h1" "2025-11-30"] = 3
  /\ calculateStreak dec2 "h1" [log "h2" "2025-12-02"] = 0.
Proof.
  split.
  - apply (proj1 (calculateStreak_run dec2 "h1" _)
             ["2025-12-02"; "2025-12-01"; "2025-11-30"]).
    + apply perm_swap.
    + split.
      * vm_compute. auto.
      * repeat constructor.
  - apply (proj2 (calculateStreak_run dec2 "h1" _)).
    intros l [<- | []]. discriminate.
Defined.

(** C10: [calculateStreak] returns the same value on any two log lists
    that are permutations of each other. *)
Theorem calculateStreak_permutation
  (e : Env) (habitId : string) (l1 l2 : list HabitLog) :
  Permutation l1 l2 ->
  calculateStreak e habitId l1 = calculateStreak e habitId l2.
Proof.
  intros P. apply streak_of_dates. now apply habitDates_perm.
Qed.

Lemma calculateStreak_permutation_witness :
  calculateStreak dec2 "h1"
    [log "h1" "2025-12-01"; log "h1" "2025-12-02"; log "h2" "2025-12-02"]
  = calculateStreak dec2 "h1"
    [log "h1" "2025-12-02"; log "h1" "2025-12-01"; log "h2" "2025-12-02"].
Proof.
  apply calculateStreak_permutation. apply perm_swap.
Defined.

(** ** The hook with the log cache *)

Section CachedFacts.

Import Cached.

Variable e : Env.

Lemma find_recalculate (f : string -> nat) (x : string) (l : list Habit) :
  find (fun h => id h =? x) (map (fun h => withStreak h (Some (f (id h)))) l)
  = option_map (fun h => withStreak h (Some (f x)))
               (find (fun h => id h =? x) l).
Proof.
  induction l as [| h l IH]; simpl.
  - reflexivity.
  - destruct (String.eqb_spec (id h) x) as [<- | _]; [reflexivity | exact IH].
Qed.

(** Recalculation gives every listed habit the streak of its own logs. *)
Lemma streakOf_recalculateStreaks
  (logs : list HabitLog) (st : Hook) (x : string) :
  streakOf (recalculateStreaks e logs st) x
  = option_map (fun _ => Some (calculateStreak e x logs)) (streakOf st x).
Proof.
  unfold streakOf, recalculateStreaks. simpl.
  rewrite (find_recalculate (fun i => calculateStreak e i logs)).
  now destruct (find (fun h => id h =? x) (habits st)).
Qed.

(** A first completion, dated today, makes a streak of one. *)
Lemma calculateStreak_first (x : string) (newLog : HabitLog)
  (logs : list HabitLog) :
  habit_id newLog = x ->
  daysDiff e (completed_date newLog) = Some 0%Z ->
  (forall l, In l logs -> habit_id l <> x) ->
  calculateStreak e x (newLog :: logs) = 1.
Proof.
  intros Hh Hd Hnone.
  apply (streak_of_run e x (newLog :: logs) [completed_date newLog]).
  - unfold habitDates. simpl. rewrite Hh, String.eqb_refl. simpl.
    replace (filter (fun l => habit_id l =? x) logs) with (@nil HabitLog).
    + reflexivity.
    + symmetry. induction logs as [| l logs IH]; [reflexivity |]. simpl.
      destruct (String.eqb_spec (habit_id l) x) as [Heq | _].
      * exfalso. apply (Hnone l); [now left | exact Heq].
      * apply IH. intros l' Hl'. apply Hnone. now right.
  - split.
    + simpl. auto.
    + repeat constructor.
Qed.

End CachedFacts.

(** The state in which [handleMarkComplete] waits for the store. *)
Example handleMarkComplete_pending :
  suspend (Cached.handleMarkComplete dec2 zeroHistory "h1") (world zeroHistory)
  = mkWorld zeroHistory [] [call (InsertLog "h1" (Some "u1") "2025-12-02")].
Proof. reflexivity. Qed.

(** C2, as stated, fails: while the insert for a habit without history is
    pending, nothing has been put in the cache; the streak shown is still 0
    and the habit is not completed today. *)
Lemma handleMarkComplete_not_optimistic :
  sent pendingMark = [call (InsertLog "h1" (Some "u1") "2025-12-02")] /\
  Cached.allLogs (hook pendingMark) = [] /\
  Cached.habitLogs (hook pendingMark) = [] /\
  Cached.streakOf (hook pendingMark) "h1" = Some (Some 0) /\
  Cached.isCompletedToday (hook pendingMark) "h1" = false /\
  ~ (Cached.streakOf (hook pendingMark) "h1" = Some (Some 1) /\
     Cached.isCompletedToday (hook pendingMark) "h1" = true).
Proof.
  repeat split. intros [H _]. discriminate H.
Qed.

(** C2, amended: markComplete first issues the remote insert and changes
    nothing in the cache while the insert is pending; once the insert has
    succeeded, the record returned by the store is appended to today's
    logs, put in front of the all-logs cache and every streak is recomputed
    from it.  In particular, for a listed habit with zero history, once the
    store has confirmed the record for today, isCompletedToday is true and
    the streak is 1. *)
Theorem handleMarkComplete_after_confirmation
  (e : Env) (st : Cached.Hook) (st' : Simple.Hook) (habitId : string)
  (remote : Remote) (newLog : HabitLog) :
  remote _ (InsertLog habitId (currentUserId e) (today e)) = Ok newLog ->
  habit_id newLog = habitId ->
  completed_date newLog = today e ->
  let pending := suspend (Cached.handleMarkComplete e st habitId) (world st) in
  let done := run remote (Cached.handleMarkComplete e st habitId) (world st) in
  let pending' :=
    suspend (Simple.handleMarkComplete e st' habitId) (world st') in
  let done' :=
    run remote (Simple.handleMarkComplete e st' habitId) (world st') in
  (hook pending = st /\
   sent pending = [call (InsertLog habitId (currentUserId e) (today e))] /\
   hook pending' = st' /\
   sent pending' = [call (InsertLog habitId (currentUserId e) (today e))]) /\
  (Cached.habitLogs (hook done) = Cached.habitLogs st ++ [newLog] /\
   Cached.allLogs (hook done) = newLog :: Cached.allLogs st /\
   Cached.habits (hook done)
   = map (fun h => withStreak h
            (Some (calculateStreak e (id h) (newLog :: Cached.allLogs st))))
         (Cached.habits st) /\
   Simple.habitLogs (hook done') = Simple.habitLogs st' ++ [newLog]) /\
  (Cached.isCompletedToday (hook done) habitId = true /\
   Simple.isCompletedToday (hook done') habitId = true) /\
  (daysDiff e (today e) = Some 0%Z ->
   (forall l, In l (Cached.allLogs st) -> habit_id l <> habitId) ->
   Cached.streakOf st habitId <> None ->
   Cached.streakOf (hook done) habitId = Some (Some 1)).
Proof.
  intros Hok Hh Hd. cbv zeta.
  unfold Cached.handleMarkComplete, Simple.handleMarkComplete. simpl.
  rewrite Hok. simpl.
  assert (Hsome : forall logs : list HabitLog,
             existsb (fun l => habit_id l =? habitId) (logs ++ [newLog])
             = true).
  { intros logs. rewrite existsb_app. simpl.
    now rewrite Hh, String.eqb_refl, orb_true_r. }
  split; [repeat split |].
  split; [repeat split |].
  split; [split; apply Hsome |].
  intros Hclock Hnone Hlisted.
  change (Cached.streakOf
            (Cached.recalculateStreaks e (newLog :: Cached.allLogs st)
               (Cached.mkHook (Cached.habits st)
                  (Cached.habitLogs st ++ [newLog])
                  (newLog :: Cached.allLogs st) (Cached.loading st)))
            habitId = Some (Some 1)).
  rewrite streakOf_recalculateStreaks.
  rewrite calculateStreak_first; try assumption.
  - unfold Cached.streakOf in *. simpl.
    destruct (find _ (Cached.habits st));
      [reflexivity | now contradiction Hlisted].
  - now rewrite Hd.
Qed.

Lemma handleMarkComplete_after_confirmation_witness :
  Cached.isCompletedToday
    (hook (run (accepting []) (Cached.handleMarkComplete dec2 zeroHistory "h1")
               (world zeroHistory))) "h1" = true /\
  Cached.streakOf
    (hook (run (accepting []) (Cached.handleMarkComplete dec2 zeroHistory "h1")
               (world zeroHistory))) "h1" = Some (Some 1).
Proof.
  pose proof (handleMarkComplete_after_confirmation dec2 zeroHistory
                Simple.initial "h1" (accepting []) (log "h1" "2025-12-02")
                eq_refl eq_refl eq_refl) as H.
  cbv zeta in H.
  destruct H as (_ & _ & [Hdone _] & Hstreak).
  split; [exact Hdone |].
  apply Hstreak.
  - reflexivity.
  - intros l [].
  - discriminate.
Defined.

(** ** The store's uniqueness constraint *)

Section StoreFacts.

Lemma count_app (habit date : string) (t1 t2 : list HabitLog) :
  Store.count habit date (t1 ++ t2)
  = Store.count habit date t1 + Store.count habit date t2.
Proof. unfold Store.count. now rewrite filter_app, length_app. Qed.

Lemma count_one (habit date id h u d : string) :
  Store.count habit date [mkLog id h u d]
  = if (h =? habit) && (d =? date) then 1 else 0.
Proof.
  unfold Store.count, Store.sameKey. simpl.
  now destruct ((h =? habit) && (d =? date)).
Qed.

Lemma count_absent (habit date : string) (table : list HabitLog) :
  existsb (Store.sameKey habit date) table = false ->
  Store.count habit date table = 0.
Proof.
  unfold Store.count. induction table as [| r table IH]; simpl.
  - reflexivity.
  - destruct (Store.sameKey habit date r); simpl; [discriminate | exact IH].
Qed.


(** An insert keeps the table within its constraint. *)
Lemma insert_unique (newId : string) (table : list HabitLog)
  (habit : string) (user : option string) (date : string) :
  Store.unique table ->
  Store.unique (snd (Store.insert newId table habit user date)).
Proof.
  intros U. unfold Store.insert.
  destruct user as [u |]; [| exact U].
  destruct (existsb (Store.sameKey habit date) table) eqn:E; [exact U |].
  simpl. intros h d. rewrite count_app, count_one. simpl.
  destruct (String.eqb_spec habit h) as [<- | _]; simpl.
  - destruct (String.eqb_spec date d) as [<- | _]; simpl.
    + rewrite (count_absent _ _ _ E). lia.
    + specialize (U habit d). lia.
  - specialize (U h d). lia.
Qed.




End StoreFacts.

(** C5: when the remote insert of markComplete fails with an error other
    than the duplicate one, the hook's state after the call is its state
    before the call (logs, streaks and isCompletedToday alike), and the
    failure is shown to the user as "Failed to log habit completion". *)
Theorem handleMarkComplete_failure
  (e : Env) (st : Cached.Hook) (st' : Simple.Hook) (habitId code : string)
  (remote : Remote) :
  remote _ (InsertLog habitId (currentUserId e) (today e)) = Err code ->
  code <> "23505" ->
  let done := run remote (Cached.handleMarkComplete e st habitId) (world st) in
  let done' :=
    run remote (Simple.handleMarkComplete e st' habitId) (world st') in
  hook done = st /\
  Cached.streakOf (hook done) habitId = Cached.streakOf st habitId /\
  Cached.isCompletedToday (hook done) habitId
  = Cached.isCompletedToday st habitId /\
  effects done = [ConsoleError "Error logging habit:";
                  Alert "Failed to log habit completion"] /\
  hook done' = st' /\
  effects done' = [ConsoleError "Error logging habit:";
                   Alert "Failed to log habit completion"].
Proof.
  intros Herr Hcode. cbv zeta.
  unfold Cached.handleMarkComplete, Simple.handleMarkComplete. simpl.
  rewrite Herr.
  destruct (String.eqb_spec code "23505") as [-> | _];
    [now contradiction Hcode |].
  simpl. repeat split.
Qed.

Lemma handleMarkComplete_failure_witness :
  hook (run offline (Cached.handleMarkComplete dec2 loadedDec1 "h1")
            (world loadedDec1)) = loadedDec1 /\
  effects (run offline (Cached.handleMarkComplete dec2 loadedDec1 "h1")
               (world loadedDec1))
  = [ConsoleError "Error logging habit:";
     Alert "Failed to log habit completion"].
Proof.
  pose proof (handleMarkComplete_failure dec2 loadedDec1 simpleDone "h1"
                "offline" offline eq_refl) as H.
  assert (Hcode : "offline" <> "23505") by discriminate.
  specialize (H Hcode). cbv zeta in H.
  destruct H as (H1 & _ & _ & H2 & _).
  split; assumption.
Defined.



(** ** Unmarking, and the round trip *)

Section Unmark.

Lemma existsb_filter_negb {A : Type} (p : A -> bool) (l : list A) :
  existsb p (filter (fun x => negb (p x)) l) = false.
Proof.
  induction l as [| x l IH]; simpl.
  - reflexivity.
  - destruct (p x) eqn:E; simpl; [exact IH |]. now rewrite E.
Qed.



End Unmark.

(** C9: after a successful unmarkComplete, today's logs hold no log of
    the habit, whatever date the removed logs carried and whatever the
    other habits' logs are, so isCompletedToday returns false. *)
Theorem handleUnmarkComplete_clears_today
  (e : Env) (captured : Cached.Hook) (w : World Cached.Hook)
  (captured' : Simple.Hook) (w' : World Simple.Hook)
  (habitId : string) (remote : Remote) :
  remote _ (DeleteLog habitId (currentUserId e) (today e)) = Ok tt ->
  let done :=
    hook (run remote (Cached.handleUnmarkComplete e captured habitId) w) in
  let done' :=
    hook (run remote (Simple.handleUnmarkComplete e captured' habitId) w') in
  Cached.isCompletedToday done habitId = false /\
  Cached.habitLogs done
  = filter (fun log => negb (habit_id log =? habitId))
           (Cached.habitLogs (hook w)) /\
  Simple.isCompletedToday done' habitId = false /\
  Simple.habitLogs done'
  = filter (fun log => negb (habit_id log =? habitId))
           (Simple.habitLogs captured').
Proof.
  intros Hok. cbv zeta.
  unfold Cached.handleUnmarkComplete, Simple.handleUnmarkComplete. simpl.
  rewrite Hok. simpl.
  unfold Cached.isCompletedToday, Simple.isCompletedToday. simpl.
  repeat split;
    apply (existsb_filter_negb (fun log => habit_id log =? habitId)).
Qed.

(** The log removed here is dated the day before. *)
Lemma handleUnmarkComplete_clears_today_witness :
  Cached.isCompletedToday loadedDec1 "h1" = true /\
  Cached.isCompletedToday
    (hook (run (accepting []) (Cached.handleUnmarkComplete dec2 loadedDec1 "h1")
               (world loadedDec1))) "h1" = false.
Proof.
  split; [reflexivity |].
  exact (proj1 (handleUnmarkComplete_clears_today dec2 loadedDec1
                  (world loadedDec1) simpleDone (world simpleDone) "h1"
                  (accepting []) eq_refl)).
Defined.

(** How [loadedDec1] comes about: the mount effect on 2025-12-01, with "h1"
    completed that day. *)
Example mount_dec1 :
  hook (run (accepting [log "h1" "2025-12-01"]) (mount dec1)
            (world Cached.initial)) = loadedDec1.
Proof. vm_compute. reflexivity. Qed.




(** ** Creating and deleting habits *)

(** C7, as stated, fails: a form with an empty title and the frequency
    "yearly" goes to the store like any other, the new habit enters the
    cache and no failure is shown. *)
Lemma handleCreate_no_validation :
  form_title badForm = "" /\
  sent createdBad = [call GetUser; call (InsertHabit badForm "u1")] /\
  map title (Cached.habits (hook createdBad)) = [""; "Morning Run"] /\
  map frequency (Cached.habits (hook createdBad)) = ["yearly"; "daily"] /\
  effects createdBad = [] /\
  ~ (sent createdBad = [] /\ hook createdBad = zeroHistory).
Proof.
  repeat split. intros [H _]. discriminate H.
Qed.

(** C7, amended: createHabit does not validate the title or the frequency.
    Before the remote insert it checks only that a user is signed in:
    without one it shows "You must be logged in to create a habit", issues
    no insert and leaves the cache as it is; with one it issues the insert
    with the form as given, whatever its title and frequency, and the
    cache changes only when the insert succeeds. *)
Theorem handleCreate_checks_session_only
  (st : Cached.Hook) (st' : Simple.Hook) (formData : FormData)
  (remote : Remote) :
  let done := run remote (Cached.handleCreate st formData) (world st) in
  let done' := run remote (Simple.handleCreate st' formData) (world st') in
  match remote _ GetUser with
  | None =>
      sent done = [call GetUser] /\ hook done = st /\
      effects done = [Alert "You must be logged in to create a habit"] /\
      sent done' = [call GetUser] /\ hook done' = st' /\
      effects done' = [Alert "You must be logged in to create a habit"]
  | Some uid =>
      sent done = [call GetUser; call (InsertHabit formData uid)] /\
      sent done' = [call GetUser; call (InsertHabit formData uid)] /\
      match remote _ (InsertHabit formData uid) with
      | Ok row =>
          Cached.habits (hook done)
          = withStreak row (Some 0) :: Cached.habits st /\
          Simple.habits (hook done') = row :: Simple.habits st' /\
          effects done = [] /\ effects done' = []
      | Err _ =>
          hook done = st /\ hook done' = st' /\
          effects done = [ConsoleError "Error creating habit:";
                          Alert "Failed to create habit"] /\
          effects done' = [ConsoleError "Error creating habit:";
                           Alert "Failed to create habit"]
      end
  end.
Proof.
  cbv zeta. unfold Cached.handleCreate, Simple.handleCreate. simpl.
  destruct (remote _ GetUser) as [uid |]; simpl.
  - destruct (remote _ (InsertHabit formData uid)) as [row | code]; simpl;
      repeat split.
  - repeat split.
Qed.

(** C8 on [src/hooks/useHabits.ts]: after a confirmed and successful
    delete of "h1" the habit is gone from [habits], but its log is still
    in [habitLogs] and isCompletedToday still answers true. *)
Theorem simple_handleDelete_keeps_logs :
  sent deletedSimple
  = [call (Confirm "Are you sure you want to delete this habit?");
     call (DeleteHabit "h1")] /\
  effects deletedSimple = [] /\
  Simple.habits (hook deletedSimple) = [] /\
  Simple.habitLogs (hook deletedSimple) = [log "h1" "2025-12-02"] /\
  Simple.isCompletedToday (hook deletedSimple) "h1" = true.
Proof. repeat split. Qed.

(** X29: the hook with the log cache does what C8 says: after a confirmed
    and successful delete, neither the habit nor any of its logs is left,
    the habit has no streak to show and isCompletedToday answers false. *)
Lemma cached_handleDelete_purges
  (w : World Cached.Hook) (habitId : string) (remote : Remote) :
  remote _ (Confirm
    "Are you sure? This will delete the habit and all completion logs.")
  = true ->
  remote _ (DeleteHabit habitId) = Ok tt ->
  let done := hook (run remote (Cached.handleDelete habitId) w) in
  (forall h, In h (Cached.habits done) -> id h <> habitId) /\
  (forall l, In l (Cached.habitLogs done) -> habit_id l <> habitId) /\
  (forall l, In l (Cached.allLogs done) -> habit_id l <> habitId) /\
  Cached.streakOf done habitId = None /\
  Cached.isCompletedToday done habitId = false.
Proof.
  intros Hyes Hok. cbv zeta. unfold Cached.handleDelete. simpl.
  rewrite Hyes. simpl. rewrite Hok. simpl.
  assert (Hgone : forall (A : Type) (key : A -> string) (l : list A) (x : A),
             In x (filter (fun y => negb (key y =? habitId)) l) ->
             key x <> habitId).
  { intros A key l x Hin. apply filter_In in Hin as [_ Hneq].
    apply negb_true_iff, String.eqb_neq in Hneq. exact Hneq. }
  repeat split.
  - apply (Hgone _ id).
  - apply (Hgone _ habit_id).
  - apply (Hgone _ habit_id).
  - unfold Cached.streakOf. simpl.
    destruct (find _ _) as [h |] eqn:F; [| reflexivity].
    apply find_some in F as [Hin Hid]. apply String.eqb_eq in Hid.
    now apply (Hgone _ id) in Hin.
  - unfold Cached.isCompletedToday. simpl.
    apply (existsb_filter_negb (fun l => habit_id l =? habitId)).
Qed.

(** ** The cached streaks are those of the cached logs *)

Section Fresh.

Variable e : Env.

Lemma recalculateStreaks_fresh (logs : list HabitLog) (st : Cached.Hook) :
  Cached.allLogs st = logs -> fresh e (Cached.recalculateStreaks e logs st).
Proof.
  intros <- h Hin. simpl in Hin.
  apply in_map_iff in Hin as (h0 & <- & _). reflexivity.
Qed.

(** Marking and unmarking leave the cache fresh, whatever it was. *)
Lemma handleMarkComplete_fresh
  (st : Cached.Hook) (habitId : string) (remote : Remote) (newLog : HabitLog) :
  remote _ (InsertLog habitId (currentUserId e) (today e)) = Ok newLog ->
  fresh e
    (hook (run remote (Cached.handleMarkComplete e st habitId) (world st))).
Proof.
  intros Hok. unfold Cached.handleMarkComplete. simpl. rewrite Hok. simpl.
  now apply recalculateStreaks_fresh.
Qed.

Lemma handleUnmarkComplete_fresh
  (st : Cached.Hook) (habitId : string) (remote : Remote) :
  remote _ (DeleteLog habitId (currentUserId e) (today e)) = Ok tt ->
  fresh e
    (hook (run remote (Cached.handleUnmarkComplete e st habitId) (world st))).
Proof.
  intros Hok. unfold Cached.handleUnmarkComplete. simpl. rewrite Hok. simpl.
  now apply recalculateStreaks_fresh.
Qed.

(** So does a load whose fetches succeed. *)
Lemma fetchHabitsAndCalculateStreaks_fresh
  (st : Cached.Hook) (remote : Remote) (user uid : string)
  (habitsData : list Habit) (logs : list HabitLog) :
  truthy (currentUserId e) = Some user ->
  remote _ GetUser = Some uid ->
  remote _ (SelectHabits uid) = Ok habitsData ->
  remote _ (SelectLogs user) = Ok logs ->
  fresh e
    (hook (run remote (Cached.fetchHabitsAndCalculateStreaks e) (world st))).
Proof.
  intros Hu Hg Hh Hl.
  unfold Cached.fetchHabitsAndCalculateStreaks, Cached.fetchAllLogs. simpl.
  rewrite Hg. simpl. rewrite Hh, Hu. simpl. rewrite Hl. simpl.
  intros h Hin. simpl in Hin.
  apply in_map_iff in Hin as (h0 & <- & _). reflexivity.
Qed.

End Fresh.

(** * Further properties of the code *)

(** ** What the streak counts *)

Section StreakShape.

Variable e : Env.

(** The loop counts a consecutive prefix and stops at the first date that
    is not the next expected day. *)
Lemma streakLoop_prefix (ds : list string) :
  forall n, exists p rest,
    ds = p ++ rest /\
    streakLoop e ds n = n + List.length p /\
    consecutiveFrom e n p /\
    (forall d rest', rest = d :: rest' ->
       daysDiff e d <> Some (Z.of_nat (n + List.length p))).
Proof.
  induction ds as [| d ds IH]; intros n.
  - exists [], []. simpl. repeat split; [lia | discriminate].
  - simpl. destruct (daysDiff e d) as [diff |] eqn:Hd.
    + destruct (Z.eqb_spec diff (Z.of_nat n)) as [-> | Hneq].
      * destruct (IH (S n)) as (p & rest & -> & Hlen & Hc & Hstop).
        exists (d :: p), rest. simpl. repeat split; try assumption.
        -- lia.
        -- intros d' rest' Hr.
           replace (n + S (List.length p)) with (S n + List.length p) by lia.
           now apply (Hstop d' rest').
      * exists [], (d :: ds). simpl. repeat split; [lia |].
        intros d' rest' Hr. injection Hr as <- _.
        rewrite Nat.add_0_r, Hd. congruence.
    + exists [], (d :: ds). simpl. repeat split; [lia |].
      intros d' rest' Hr. injection Hr as <- _.
      rewrite Hd. discriminate.
Qed.

Lemma consecutiveFrom_nth (p : list string) :
  forall n k d, consecutiveFrom e n p -> nth_error p k = Some d ->
                daysDiff e d = Some (Z.of_nat (n + k)).
Proof.
  induction p as [| x p IH]; intros n k d Hc Hk.
  - destruct k; discriminate.
  - destruct Hc as [Hx Hc]. destruct k as [| k]; simpl in Hk.
    + injection Hk as <-. now rewrite Nat.add_0_r.
    + replace (n + S k) with (S n + k) by lia. now apply (IH (S n)).
Qed.

Lemma consecutiveFrom_later (p : list string) :
  forall n d, consecutiveFrom e n p -> In d p ->
              exists k, n <= k /\ daysDiff e d = Some (Z.of_nat k).
Proof.
  induction p as [| x p IH]; intros n d Hc Hin; [destruct Hin |].
  destruct Hc as [Hx Hc]. destruct Hin as [<- | Hin].
  - exists n. split; [lia | exact Hx].
  - destruct (IH (S n) d Hc Hin) as (k & Hk & Hd).
    exists k. split; [lia | exact Hd].
Qed.

Lemma consecutiveFrom_NoDup (p : list string) :
  forall n, consecutiveFrom e n p -> NoDup p.
Proof.
  induction p as [| x p IH]; intros n Hc; [constructor |].
  destruct Hc as [Hx Hc]. constructor; [| now apply (IH (S n))].
  intros Hin. destruct (consecutiveFrom_later p (S n) x Hc Hin)
    as (k & Hk & Hd).
  rewrite Hx in Hd. injection Hd as Hd. lia.
Qed.

Lemma sorted_dates_in (habitId d : string) (logs : list HabitLog) :
  In d (rev (Js.sort (habitDates habitId logs))) <->
  In d (habitDates habitId logs).
Proof.
  rewrite <- in_rev. split; intros H.
  - eapply Permutation_in; [apply sort_perm | exact H].
  - eapply Permutation_in; [symmetry; apply sort_perm | exact H].
Qed.

Lemma descending_snoc (l : list string) (x : string) :
  Js.descending l -> Forall (fun y => String.leb x y = true) l ->
  Js.descending (l ++ [x]).
Proof.
  unfold Js.descending.
  induction l as [| y l IH]; simpl; intros D F.
  - constructor; constructor.
  - inversion D as [| ? ? S Hall]; subst.
    inversion F as [| ? ? Hy Fl]; subst.
    constructor; [now apply IH |].
    apply Forall_app. split; [assumption | now constructor].
Qed.

Lemma ascending_rev (l : list string) :
  Js.ascending l -> Js.descending (rev l).
Proof.
  unfold Js.ascending.
  induction l as [| x l IH]; simpl; intros A.
  - constructor.
  - inversion A as [| ? ? S Hall]; subst.
    apply descending_snoc; [now apply IH |].
    apply Forall_rev. exact Hall.
Qed.

(** The habit's newest date string heads the sorted, reversed list. *)
Lemma sorted_dates_head (habitId : string) (logs : list HabitLog)
  (newest : HabitLog) :
  In newest logs ->
  habit_id newest = habitId ->
  (forall l, In l logs -> habit_id l = habitId ->
             String.leb (completed_date l) (completed_date newest) = true) ->
  exists ds,
    rev (Js.sort (habitDates habitId logs)) = completed_date newest :: ds.
Proof.
  intros Hin Hh Hmax.
  destruct (rev (Js.sort (habitDates habitId logs))) as [| d ds] eqn:E.
  - assert (Hnew : In (completed_date newest) []).
    { rewrite <- E. apply sorted_dates_in. apply in_habitDates.
      now exists newest. }
    destruct Hnew.
  - exists ds. f_equal.
    assert (Hdesc : Js.descending (d :: ds)).
    { rewrite <- E. apply ascending_rev, sort_ascending. }
    assert (Hnew : In (completed_date newest) (d :: ds)).
    { rewrite <- E. apply sorted_dates_in. apply in_habitDates.
      now exists newest. }
    assert (Hd0 : In d (habitDates habitId logs)).
    { apply (sorted_dates_in habitId). rewrite E. now left. }
    apply in_habitDates in Hd0 as (l0 & Hl0 & Hh0 & Hdate).
    apply String.leb_antisym.
    + rewrite <- Hdate. now apply Hmax.
    + destruct Hnew as [-> | Hnew]; [apply leb_cases; now right |].
      inversion Hdesc as [| ? ? _ Hall]; subst.
      rewrite Forall_forall in Hall. now apply Hall.
Qed.

(** With its newest date today, a habit has a streak of at least one. *)
Lemma streak_with_today (habitId : string) (logs : list HabitLog)
  (newest : HabitLog) :
  In newest logs ->
  habit_id newest = habitId ->
  (forall l, In l logs -> habit_id l = habitId ->
             String.leb (completed_date l) (completed_date newest) = true) ->
  daysDiff e (completed_date newest) = Some 0%Z ->
  1 <= calculateStreak e habitId logs.
Proof.
  intros Hin Hh Hmax Hd. rewrite calculateStreak_dates.
  destruct (sorted_dates_head habitId logs newest Hin Hh Hmax) as (ds & ->).
  simpl. rewrite Hd. simpl.
  destruct (streakLoop_prefix ds 1) as (p & rest & _ & -> & _). lia.
Qed.

Lemma habitDates_app (habitId : string) (l1 l2 : list HabitLog) :
  habitDates habitId (l1 ++ l2)
  = habitDates habitId l1 ++ habitDates habitId l2.
Proof. unfold habitDates. now rewrite filter_app, map_app. Qed.

Lemma habitDates_none (habitId : string) (logs : list HabitLog) :
  (forall l, In l logs -> habit_id l <> habitId) ->
  habitDates habitId logs = [].
Proof.
  intros Hnone. unfold habitDates.
  induction logs as [| l logs IH]; [reflexivity |]. simpl.
  destruct (String.eqb_spec (habit_id l) habitId) as [Heq | _].
  - exfalso. apply (Hnone l); [now left | exact Heq].
  - apply IH. intros l' Hl'. apply Hnone. now right.
Qed.

End StreakShape.

(** X1: the streak is the length of the longest prefix of the habit's
    dates, sorted newest first, whose k-th date the code's day count
    ([daysDiff]) places k days before today; the date after that prefix,
    if there is one, is not placed at the next day. *)
Theorem calculateStreak_prefix
  (e : Env) (habitId : string) (logs : list HabitLog) :
  exists p rest,
    rev (Js.sort (habitDates habitId logs)) = p ++ rest /\
    calculateStreak e habitId logs = List.length p /\
    consecutiveFrom e 0 p /\
    (forall d rest', rest = d :: rest' ->
       daysDiff e d <> Some (Z.of_nat (List.length p))).
Proof.
  rewrite calculateStreak_dates.
  destruct (streakLoop_prefix e (rev (Js.sort (habitDates habitId logs))) 0)
    as (p & rest & Heq & Hlen & Hc & Hstop).
  exists p, rest. repeat split; assumption.
Qed.

(** X2: the loop never counts a slot that no log fills: for each k below
    the streak, some log of the habit has a date that the code's own day
    count ([daysDiff]: the floor of the milliseconds between the date's
    local midnight and today's, over 24 hours) places exactly k days
    back.  This is the code's count, not the calendar's (see
    [calculateStreak_after_spring_forward]). *)
Theorem calculateStreak_days_completed
  (e : Env) (habitId : string) (logs : list HabitLog) (k : nat) :
  k < calculateStreak e habitId logs ->
  exists l, In l logs /\ habit_id l = habitId /\
            daysDiff e (completed_date l) = Some (Z.of_nat k).
Proof.
  rewrite calculateStreak_dates.
  destruct (streakLoop_prefix e (rev (Js.sort (habitDates habitId logs))) 0)
    as (p & rest & Heq & -> & Hc & _).
  simpl. intros Hk.
  destruct (nth_error p k) as [d |] eqn:Hn.
  - pose proof (consecutiveFrom_nth e p 0 k d Hc Hn) as Hd.
    assert (Hin : In d (habitDates habitId logs)).
    { apply (sorted_dates_in habitId d logs). rewrite Heq.
      apply in_or_app. left. eapply nth_error_In. exact Hn. }
    apply in_habitDates in Hin as (l & Hl & Hh & <-).
    exists l. repeat split; assumption.
  - apply nth_error_None in Hn. lia.
Qed.

Lemma calculateStreak_days_completed_witness :
  exists l, In l [log "h1" "2025-12-01"; log "h1" "2025-12-02"] /\
            habit_id l = "h1" /\
            daysDiff dec2 (completed_date l) = Some 1%Z.
Proof.
  apply (calculateStreak_days_completed dec2 "h1"
           [log "h1" "2025-12-01"; log "h1" "2025-12-02"] 1).
  vm_compute. apply le_n.
Defined.

(** X3: the streak never exceeds the number of distinct dates the habit
    has logs for; a date logged twice is counted once at most. *)
Theorem calculateStreak_bound
  (e : Env) (habitId : string) (logs : list HabitLog) :
  calculateStreak e habitId logs
  <= List.length (nodup string_dec (habitDates habitId logs)).
Proof.
  rewrite calculateStreak_dates.
  destruct (streakLoop_prefix e (rev (Js.sort (habitDates habitId logs))) 0)
    as (p & rest & Heq & -> & Hc & _).
  simpl. apply NoDup_incl_length.
  - now apply (consecutiveFrom_NoDup e p 0).
  - intros d Hd. apply nodup_In.
    apply (sorted_dates_in habitId d logs). rewrite Heq.
    apply in_or_app. now left.
Qed.

(** A completion logged twice for today stops the walk after one day. *)
Example calculateStreak_duplicate :
  calculateStreak dec2 "h1"
    [log "h1" "2025-12-02"; log "h1" "2025-12-02"; log "h1" "2025-12-01"] = 1.
Proof. vm_compute. reflexivity. Qed.

(** X4: when the habit's newest date, in string order, is not 0 days
    before today (a date in the future, a date the clock cannot read, or a
    past date), the streak is 0, also when today has a log. *)
Theorem calculateStreak_newest_not_today
  (e : Env) (habitId : string) (logs : list HabitLog) (newest : HabitLog) :
  In newest logs ->
  habit_id newest = habitId ->
  (forall l, In l logs -> habit_id l = habitId ->
             String.leb (completed_date l) (completed_date newest) = true) ->
  daysDiff e (completed_date newest) <> Some 0%Z ->
  calculateStreak e habitId logs = 0.
Proof.
  intros Hin Hh Hmax Hd. rewrite calculateStreak_dates.
  destruct (sorted_dates_head habitId logs newest Hin Hh Hmax) as (ds & ->).
  now apply streakLoop_head.
Qed.

(** Here today is completed, and so is a day the clock calls tomorrow. *)
Lemma calculateStreak_newest_not_today_witness :
  calculateStreak dec2 "h1" [log "h1" "2025-12-02"; log "h1" "2025-12-03"]
  = 0.
Proof.
  apply (calculateStreak_newest_not_today dec2 "h1" _ (log "h1" "2025-12-03")).
  - right. now left.
  - reflexivity.
  - intros l [<- | [<- | []]] _; reflexivity.
  - vm_compute. discriminate.
Defined.

(** X5: the streak of a habit depends on its own logs only: logs of other
    habits, however many and whatever their dates, do not change it. *)
Theorem calculateStreak_other_habits
  (e : Env) (habitId : string) (logs others : list HabitLog) :
  (forall l, In l others -> habit_id l <> habitId) ->
  calculateStreak e habitId (logs ++ others) = calculateStreak e habitId logs
  /\ calculateStreak e habitId (others ++ logs)
     = calculateStreak e habitId logs.
Proof.
  intros Hnone. rewrite !calculateStreak_dates, !habitDates_app.
  rewrite (habitDates_none habitId others Hnone).
  now rewrite app_nil_r.
Qed.

Lemma calculateStreak_other_habits_witness :
  calculateStreak dec2 "h1" ([log "h1" "2025-12-02"] ++ [log "h2" "2025-12-01"])
  = calculateStreak dec2 "h1" [log "h1" "2025-12-02"].
Proof.
  apply (calculateStreak_other_habits dec2 "h1").
  intros l [<- | []]. discriminate.
Defined.

(** ** Marking and unmarking, seen through the streak *)

Section MarkedStreak.

Variable e : Env.

Lemma in_recalculated (logs : list HabitLog) (hs : list Habit) (x : Habit) :
  In x (map (fun h => withStreak h (Some (calculateStreak e (id h) logs))) hs)
  -> streak x = Some (calculateStreak e (id x) logs).
Proof.
  intros Hin. apply in_map_iff in Hin as (h0 & <- & _). reflexivity.
Qed.

End MarkedStreak.

(** X6: after a successful unmarkComplete every entry of the habit shows
    streak 0, however long its history, as long as today's string is the
    only date the cache holds for the habit that the clock places 0 days
    ago: the record for today is gone and the walk starts at today. *)
Theorem handleUnmarkComplete_streak_zero
  (e : Env) (st : Cached.Hook) (w : World Cached.Hook) (habitId : string)
  (remote : Remote) (x : Habit) :
  remote _ (DeleteLog habitId (currentUserId e) (today e)) = Ok tt ->
  (forall l, In l (Cached.allLogs st) -> habit_id l = habitId ->
             daysDiff e (completed_date l) = Some 0%Z ->
             completed_date l = today e) ->
  In x (Cached.habits
          (hook (run remote (Cached.handleUnmarkComplete e st habitId) w))) ->
  id x = habitId ->
  streak x = Some 0.
Proof.
  intros Hok Honly. unfold Cached.handleUnmarkComplete. simpl.
  rewrite Hok. simpl. intros Hin Hid.
  rewrite (in_recalculated e _ _ x Hin), Hid. f_equal.
  apply streak_without_today.
  intros l Hl Hh Hd. apply filter_In in Hl as [Hl Hkeep].
  rewrite Hh, String.eqb_refl in Hkeep. simpl in Hkeep.
  apply negb_true_iff, String.eqb_neq in Hkeep.
  apply Hkeep. now apply Honly.
Qed.

Lemma handleUnmarkComplete_streak_zero_witness :
  streak (withStreak (habit "h1" (Some 2)) (Some 0)) = Some 0.
Proof.
  apply (handleUnmarkComplete_streak_zero dec2
           (Cached.mkHook [habit "h1" (Some 2)] [log "h1" "2025-12-02"]
              [log "h1" "2025-12-02"; log "h1" "2025-12-01"] false)
           (world (Cached.mkHook [habit "h1" (Some 2)] [log "h1" "2025-12-02"]
              [log "h1" "2025-12-02"; log "h1" "2025-12-01"] false))
           "h1" (accepting [])).
  - reflexivity.
  - intros l [<- | [<- | []]] _; [reflexivity | vm_compute; discriminate].
  - left. reflexivity.
  - reflexivity.
Defined.

(** X7: after a successful markComplete whose record is dated today,
    every entry of the habit shows a streak of at least 1, provided the
    clock places today's string 0 days ago and the cache holds no later
    date for the habit. *)
Theorem handleMarkComplete_streak_positive
  (e : Env) (st : Cached.Hook) (w : World Cached.Hook) (habitId : string)
  (remote : Remote) (newLog : HabitLog) (x : Habit) :
  remote _ (InsertLog habitId (currentUserId e) (today e)) = Ok newLog ->
  habit_id newLog = habitId ->
  completed_date newLog = today e ->
  daysDiff e (today e) = Some 0%Z ->
  (forall l, In l (Cached.allLogs st) -> habit_id l = habitId ->
             String.leb (completed_date l) (today e) = true) ->
  In x (Cached.habits
          (hook (run remote (Cached.handleMarkComplete e st habitId) w))) ->
  id x = habitId ->
  exists n, streak x = Some n /\ 1 <= n.
Proof.
  intros Hok Hh Hd Hclock Hmax. unfold Cached.handleMarkComplete. simpl.
  rewrite Hok. simpl. intros Hin Hid.
  rewrite (in_recalculated e _ _ x Hin), Hid.
  eexists. split; [reflexivity |].
  apply (streak_with_today e habitId _ newLog).
  - now left.
  - exact Hh.
  - intros l [<- | Hl] Hl'.
    + apply leb_cases. now right.
    + rewrite Hd. now apply Hmax.
  - now rewrite Hd.
Qed.

Lemma handleMarkComplete_streak_positive_witness :
  exists n, streak (withStreak (habit "h1" (Some 1)) (Some 2)) = Some n
            /\ 1 <= n.
Proof.
  apply (handleMarkComplete_streak_positive dec2 loadedDec1 (world loadedDec1)
           "h1" (accepting [log "h1" "2025-12-01"]) (log "h1" "2025-12-02")).
  - reflexivity.
  - reflexivity.
  - reflexivity.
  - reflexivity.
  - intros l [<- | []] _. reflexivity.
  - left. reflexivity.
  - reflexivity.
Defined.

(** The same mark for a user whose local day is still 2025-12-01 while
    [toISOString] already says 2025-12-02: the new record is dated
    tomorrow for the streak's clock, and the streak falls from 1 to 0. *)
Example handleMarkComplete_utc_skew :
  let e := mkEnv "2025-12-02" (checkDate dec1) Utc.midnightOf (Some "u1") in
  Cached.streakOf
    (hook (run (accepting [log "h1" "2025-12-01"])
               (Cached.handleMarkComplete e loadedDec1 "h1")
               (world loadedDec1))) "h1" = Some (Some 0).
Proof. vm_compute. reflexivity. Qed.

(** ** Two marks in flight *)

(** X8: when a second markComplete is started before the first has
    resolved, both handlers are closures of the same render.  In the hook
    with the log cache both records reach today's logs, but the all-logs
    cache and the streaks are rebuilt from the second handler's stale
    copy: the first record is not added to it.  A first habit without
    history is then shown as completed today with streak 0. *)
Theorem cached_marks_in_flight
  (e : Env) (st : Cached.Hook) (h1 h2 : string) (remote1 remote2 : Remote)
  (n1 n2 : HabitLog) :
  remote1 _ (InsertLog h1 (currentUserId e) (today e)) = Ok n1 ->
  remote2 _ (InsertLog h2 (currentUserId e) (today e)) = Ok n2 ->
  let w1 := run remote1 (Cached.handleMarkComplete e st h1) (world st) in
  let w2 := run remote2 (Cached.handleMarkComplete e st h2) w1 in
  Cached.habitLogs (hook w2) = Cached.habitLogs st ++ [n1; n2] /\
  Cached.allLogs (hook w2) = n2 :: Cached.allLogs st /\
  fresh e (hook w2) /\
  (habit_id n1 = h1 -> habit_id n2 <> h1 ->
   (forall l, In l (Cached.allLogs st) -> habit_id l <> h1) ->
   Cached.isCompletedToday (hook w2) h1 = true /\
   forall x, In x (Cached.habits (hook w2)) -> id x = h1 ->
             streak x = Some 0).
Proof.
  intros Hok1 Hok2. cbv zeta. unfold Cached.handleMarkComplete. simpl.
  rewrite Hok1. simpl. rewrite Hok2. simpl.
  split; [now rewrite <- app_assoc |].
  split; [reflexivity |].
  split.
  - intros x Hin. simpl in Hin. simpl.
    apply in_map_iff in Hin as (x0 & <- & _). reflexivity.
  - intros Hn1 Hn2 Hnone. split.
    + unfold Cached.isCompletedToday. simpl.
      rewrite !existsb_app. simpl.
      now rewrite Hn1, String.eqb_refl, orb_true_r.
    + intros x Hin Hid.
      rewrite (in_recalculated e _ _ x Hin), Hid. f_equal.
      apply streak_without_today.
      intros l [<- | Hl] Hh; [now contradiction Hn2 |].
      now apply Hnone in Hl.
Qed.

Lemma cached_marks_in_flight_witness :
  Cached.allLogs
    (hook (run (accepting [])
               (Cached.handleMarkComplete dec2 zeroHistory "h2")
               (run (accepting [])
                    (Cached.handleMarkComplete dec2 zeroHistory "h1")
                    (world zeroHistory))))
  = [log "h2" "2025-12-02"].
Proof.
  exact (proj1 (proj2 (cached_marks_in_flight dec2 zeroHistory "h1" "h2"
                         (accepting []) (accepting [])
                         (log "h1" "2025-12-02") (log "h2" "2025-12-02")
                         eq_refl eq_refl))).
Defined.

(** X9: in [src/hooks/useHabits.ts] the setter is given a list built
    from the captured render, so of two marks in flight only the second
    record reaches today's logs: a first habit that was not completed
    before is still not shown as completed, although the store has
    accepted its record. *)
Theorem simple_marks_in_flight
  (e : Env) (st : Simple.Hook) (h1 h2 : string) (remote1 remote2 : Remote)
  (n1 n2 : HabitLog) :
  remote1 _ (InsertLog h1 (currentUserId e) (today e)) = Ok n1 ->
  remote2 _ (InsertLog h2 (currentUserId e) (today e)) = Ok n2 ->
  let w1 := run remote1 (Simple.handleMarkComplete e st h1) (world st) in
  let w2 := run remote2 (Simple.handleMarkComplete e st h2) w1 in
  Simple.habitLogs (hook w2) = Simple.habitLogs st ++ [n2] /\
  (habit_id n2 <> h1 -> Simple.isCompletedToday st h1 = false ->
   Simple.isCompletedToday (hook w2) h1 = false).
Proof.
  intros Hok1 Hok2. cbv zeta. unfold Simple.handleMarkComplete. simpl.
  rewrite Hok1. simpl. rewrite Hok2. simpl.
  split; [reflexivity |].
  intros Hn2 Hnot. unfold Simple.isCompletedToday in *. simpl.
  rewrite existsb_app, Hnot. simpl.
  apply String.eqb_neq in Hn2. now rewrite Hn2.
Qed.

Lemma simple_marks_in_flight_witness :
  Simple.habitLogs
    (hook (run (accepting [])
               (Simple.handleMarkComplete dec2 Simple.initial "h2")
               (run (accepting [])
                    (Simple.handleMarkComplete dec2 Simple.initial "h1")
                    (world Simple.initial))))
  = [log "h2" "2025-12-02"].
Proof.
  exact (proj1 (simple_marks_in_flight dec2 Simple.initial "h1" "h2"
                  (accepting []) (accepting [])
                  (log "h1" "2025-12-02") (log "h2" "2025-12-02")
                  eq_refl eq_refl)).
Defined.

(** ** Refusals and failures *)

(** X10: handleDelete asks before it deletes: when the user declines the
    dialog, no request goes to the store and the state stays as it is, in
    both hooks. *)
Theorem handleDelete_declined
  (st : Cached.Hook) (st' : Simple.Hook) (habitId : string)
  (remote : Remote) :
  remote _ (Confirm
    "Are you sure? This will delete the habit and all completion logs.")
  = false ->
  remote _ (Confirm "Are you sure you want to delete this habit?") = false ->
  run remote (Cached.handleDelete habitId) (world st)
  = mkWorld st []
      [call (Confirm
         "Are you sure? This will delete the habit and all completion logs.")]
  /\ run remote (Simple.handleDelete st' habitId) (world st')
     = mkWorld st' []
         [call (Confirm "Are you sure you want to delete this habit?")].
Proof.
  intros Hno Hno'. unfold Cached.handleDelete, Simple.handleDelete. simpl.
  rewrite Hno, Hno'. simpl. split; reflexivity.
Qed.

Lemma handleDelete_declined_witness :
  hook (run offline (Cached.handleDelete "h1") (world loadedDec1))
  = loadedDec1.
Proof.
  pose proof (handleDelete_declined loadedDec1 simpleDone "h1" offline
                eq_refl eq_refl) as [H _].
  now rewrite H.
Defined.

(** X11: when the store refuses the delete, both hooks keep the habit and
    all logs and show "Failed to delete habit". *)
Theorem handleDelete_failure
  (st : Cached.Hook) (st' : Simple.Hook) (habitId code : string)
  (remote : Remote) :
  remote _ (Confirm
    "Are you sure? This will delete the habit and all completion logs.")
  = true ->
  remote _ (Confirm "Are you sure you want to delete this habit?") = true ->
  remote _ (DeleteHabit habitId) = Err code ->
  let done := run remote (Cached.handleDelete habitId) (world st) in
  let done' := run remote (Simple.handleDelete st' habitId) (world st') in
  hook done = st /\
  effects done = [ConsoleError "Error deleting habit:";
                  Alert "Failed to delete habit"] /\
  hook done' = st' /\
  effects done' = [ConsoleError "Error deleting habit:";
                   Alert "Failed to delete habit"].
Proof.
  intros Hyes Hyes' Herr. cbv zeta.
  unfold Cached.handleDelete, Simple.handleDelete. simpl.
  rewrite Hyes, Hyes'. simpl. rewrite Herr. simpl. repeat split.
Qed.

Lemma handleDelete_failure_witness :
  hook (run (onConfirm true offline) (Cached.handleDelete "h1")
            (world loadedDec1)) = loadedDec1.
Proof.
  exact (proj1 (handleDelete_failure loadedDec1 simpleDone "h1" "offline"
                  (onConfirm true offline) eq_refl eq_refl eq_refl)).
Defined.

(** X12: when the store refuses the delete of today's record,
    unmarkComplete changes nothing in either hook and tells the user
    nothing: the failure is only written to the console. *)
Theorem handleUnmarkComplete_failure
  (e : Env) (st : Cached.Hook) (st' : Simple.Hook) (habitId code : string)
  (remote : Remote) :
  remote _ (DeleteLog habitId (currentUserId e) (today e)) = Err code ->
  let done :=
    run remote (Cached.handleUnmarkComplete e st habitId) (world st) in
  let done' :=
    run remote (Simple.handleUnmarkComplete e st' habitId) (world st') in
  hook done = st /\ effects done = [ConsoleError "Error removing log:"] /\
  hook done' = st' /\ effects done' = [ConsoleError "Error removing log:"].
Proof.
  intros Herr. cbv zeta.
  unfold Cached.handleUnmarkComplete, Simple.handleUnmarkComplete. simpl.
  rewrite Herr. simpl. repeat split.
Qed.

Lemma handleUnmarkComplete_failure_witness :
  effects (run offline (Cached.handleUnmarkComplete dec2 loadedDec1 "h1")
               (world loadedDec1))
  = [ConsoleError "Error removing log:"].
Proof.
  exact (proj1 (proj2 (handleUnmarkComplete_failure dec2 loadedDec1 simpleDone
                         "h1" "offline" offline eq_refl))).
Defined.

(** ** Editing, and what the handlers leave alone *)

Section Others.

Lemma find_filter_other (h h' : string) (l : list Habit) :
  h' <> h ->
  find (fun x => id x =? h') (filter (fun x => negb (id x =? h)) l)
  = find (fun x => id x =? h') l.
Proof.
  intros Hneq. induction l as [| x l IH]; simpl; [reflexivity |].
  destruct (String.eqb_spec (id x) h) as [Hx | Hx]; simpl.
  - destruct (String.eqb_spec (id x) h') as [Hx' | _]; [congruence | exact IH].
  - destruct (id x =? h'); [reflexivity | exact IH].
Qed.

Lemma existsb_filter_other (h h' : string) (l : list HabitLog) :
  h' <> h ->
  existsb (fun x => habit_id x =? h')
          (filter (fun x => negb (habit_id x =? h)) l)
  = existsb (fun x => habit_id x =? h') l.
Proof.
  intros Hneq. induction l as [| x l IH]; simpl; [reflexivity |].
  destruct (String.eqb_spec (habit_id x) h) as [Hx | Hx]; simpl.
  - destruct (String.eqb_spec (habit_id x) h') as [Hx' | _];
      [congruence | exact IH].
  - now rewrite IH.
Qed.

(** Dropping logs of [h], all or some, keeps the dates of any other
    habit. *)
Lemma habitDates_filter_other (h h' : string) (keep : HabitLog -> bool)
  (l : list HabitLog) :
  h' <> h ->
  (forall x, habit_id x <> h -> keep x = true) ->
  habitDates h' (filter keep l) = habitDates h' l.
Proof.
  intros Hneq Hkeep. unfold habitDates. f_equal.
  induction l as [| x l IH]; simpl; [reflexivity |].
  destruct (String.eqb_spec (habit_id x) h') as [Hx' | Hx'].
  - rewrite (Hkeep x) by congruence. simpl.
    destruct (String.eqb_spec (habit_id x) h'); [| contradiction].
    now rewrite IH.
  - destruct (keep x); simpl; [| exact IH].
    destruct (String.eqb_spec (habit_id x) h'); [contradiction | exact IH].
Qed.


Lemma find_update (editingId h : string) (row : Habit) (l : list Habit) :
  id row = editingId ->
  option_map streak
    (find (fun x => id x =? h)
       (map (fun x => if id x =? editingId
                      then withStreak row (streak x) else x) l))
  = option_map streak (find (fun x => id x =? h) l).
Proof.
  intros Hrow. induction l as [| x l IH]; simpl; [reflexivity |].
  destruct (String.eqb_spec (id x) editingId) as [Hx | Hx]; simpl.
  - rewrite Hrow, Hx.
    destruct (editingId =? h); [reflexivity | exact IH].
  - destruct (id x =? h); [reflexivity | exact IH].
Qed.

End Others.

(** X13: a successful edit in the hook with the log cache replaces the
    habit's fields by the store's row and keeps its streak: the list has
    the same habits in the same order with the same streaks, the edited
    entries carry the row's title, description and frequency, every other
    entry is untouched, and both log caches are as before.  Editing a
    habit that is not listed changes nothing. *)
Theorem handleUpdate_keeps_streak
  (st : Cached.Hook) (editingId : string) (formData : FormData)
  (remote : Remote) (row : Habit) :
  remote _ (UpdateHabit editingId formData) = Ok row ->
  id row = editingId ->
  let done :=
    hook (run remote (Cached.handleUpdate editingId formData) (world st)) in
  map id (Cached.habits done) = map id (Cached.habits st) /\
  map streak (Cached.habits done) = map streak (Cached.habits st) /\
  (forall h, Cached.streakOf done h = Cached.streakOf st h) /\
  (forall x, In x (Cached.habits done) -> id x = editingId ->
             title x = title row /\ description x = description row /\
             frequency x = frequency row) /\
  (forall x, In x (Cached.habits st) -> id x <> editingId ->
             In x (Cached.habits done)) /\
  Cached.habitLogs done = Cached.habitLogs st /\
  Cached.allLogs done = Cached.allLogs st /\
  ((forall x, In x (Cached.habits st) -> id x <> editingId) -> done = st).
Proof.
  intros Hok Hrow. cbv zeta. unfold Cached.handleUpdate. simpl.
  rewrite Hok. simpl.
  split; [| split; [| split; [| split; [| split; [| split; [| split]]]]]].
  - rewrite map_map. apply map_ext. intros x.
    destruct (String.eqb_spec (id x) editingId); [simpl; congruence |
                                                   reflexivity].
  - rewrite map_map. apply map_ext. intros x.
    now destruct (id x =? editingId).
  - intros h. unfold Cached.streakOf. simpl. now apply find_update.
  - intros x Hin Hid. apply in_map_iff in Hin as (x0 & Hx & _).
    destruct (String.eqb_spec (id x0) editingId) as [_ | Hx0]; subst x.
    + repeat split.
    + contradiction.
  - intros x Hin Hid. apply in_map_iff. exists x. split; [| exact Hin].
    apply String.eqb_neq in Hid. now rewrite Hid.
  - reflexivity.
  - reflexivity.
  - intros Hnone. destruct st as [hs tl al ld]. simpl in *.
    unfold Cached.setHabits. simpl. f_equal.
    rewrite <- (map_id hs) at 2. apply map_ext_in. intros x Hin.
    apply Hnone in Hin. apply String.eqb_neq in Hin. now rewrite Hin.
Qed.

Lemma handleUpdate_keeps_streak_witness :
  Cached.streakOf
    (hook (run (accepting []) (Cached.handleUpdate "h1" badForm)
               (world loadedDec1))) "h1"
  = Cached.streakOf loadedDec1 "h1".
Proof.
  pose proof (handleUpdate_keeps_streak loadedDec1 "h1" badForm (accepting [])
                _ eq_refl eq_refl) as H.
  cbv zeta in H. destruct H as (_ & _ & H & _). apply H.
Defined.

(** X14: deleting a habit from the hook with the log cache, whatever the
    user and the store answer, leaves every other habit as it was: its
    streak, its isCompletedToday value and its dates in the all-logs
    cache. *)
Theorem handleDelete_other_habits
  (w : World Cached.Hook) (habitId other : string) (remote : Remote) :
  other <> habitId ->
  let done := hook (run remote (Cached.handleDelete habitId) w) in
  Cached.streakOf done other = Cached.streakOf (hook w) other /\
  Cached.isCompletedToday done other
  = Cached.isCompletedToday (hook w) other /\
  habitDates other (Cached.allLogs done)
  = habitDates other (Cached.allLogs (hook w)).
Proof.
  intros Hneq. cbv zeta. unfold Cached.handleDelete. simpl.
  destruct (remote _ (Confirm _)); simpl; [| repeat split].
  destruct (remote _ (DeleteHabit habitId)) as [u | code]; simpl;
    [| repeat split].
  split; [| split].
  - unfold Cached.streakOf. simpl. now rewrite find_filter_other.
  - unfold Cached.isCompletedToday. simpl. now apply existsb_filter_other.
  - apply (habitDates_filter_other habitId); [exact Hneq |].
    intros x Hx. apply negb_true_iff. now apply String.eqb_neq.
Qed.

Lemma handleDelete_other_habits_witness :
  Cached.streakOf
    (hook (run (accepting []) (Cached.handleDelete "h2") (world loadedDec1)))
    "h1"
  = Cached.streakOf loadedDec1 "h1".
Proof.
  assert (Hneq : "h1" <> "h2") by discriminate.
  exact (proj1 (handleDelete_other_habits (world loadedDec1) "h2" "h1"
                  (accepting []) Hneq)).
Defined.





(** ** Loading *)

(** X17: fetchHabitsAndCalculateStreaks always ends with the loading flag
    off, whether there is no session, the habits or the logs cannot be
    fetched, or all succeeds; and it never touches today's logs. *)
Theorem fetchHabitsAndCalculateStreaks_ends_loading
  (e : Env) (st : Cached.Hook) (remote : Remote) :
  let done :=
    hook (run remote (Cached.fetchHabitsAndCalculateStreaks e) (world st)) in
  Cached.loading done = false /\
  Cached.habitLogs done = Cached.habitLogs st.
Proof.
  cbv zeta.
  unfold Cached.fetchHabitsAndCalculateStreaks, Cached.fetchAllLogs. simpl.
  destruct (remote _ GetUser) as [uid |]; simpl; [| split; reflexivity].
  destruct (remote _ (SelectHabits uid)) as [hs | code]; simpl;
    [| split; reflexivity].
  destruct (truthy (currentUserId e)) as [user |]; simpl;
    [| split; reflexivity].
  destruct (remote _ (SelectLogs user)) as [logs | code]; simpl;
    split; reflexivity.
Qed.

(** X18: when the habits arrive but the logs do not (the hook's user id
    is null or empty, or the store refuses the query), every habit is
    listed with streak 0 and the all-logs cache keeps what it held. *)
Theorem fetchHabitsAndCalculateStreaks_without_logs
  (e : Env) (st : Cached.Hook) (remote : Remote) (uid : string)
  (habitsData : list Habit) :
  remote _ GetUser = Some uid ->
  remote _ (SelectHabits uid) = Ok habitsData ->
  (truthy (currentUserId e) = None \/
   exists user code, truthy (currentUserId e) = Some user /\
                     remote _ (SelectLogs user) = Err code) ->
  let done :=
    hook (run remote (Cached.fetchHabitsAndCalculateStreaks e) (world st)) in
  Cached.habits done = map (fun h => withStreak h (Some 0)) habitsData /\
  Cached.allLogs done = Cached.allLogs st.
Proof.
  intros Hu Hh Hlogs. cbv zeta.
  unfold Cached.fetchHabitsAndCalculateStreaks, Cached.fetchAllLogs. simpl.
  rewrite Hu. simpl. rewrite Hh.
  destruct Hlogs as [Hnone | (user & code & Hsome & Herr)].
  - rewrite Hnone. simpl. split; reflexivity.
  - rewrite Hsome. simpl. rewrite Herr. simpl. split; reflexivity.
Qed.

Lemma fetchHabitsAndCalculateStreaks_without_logs_witness :
  Cached.habits
    (hook (run (accepting [log "h1" "2025-12-02"])
               (Cached.fetchHabitsAndCalculateStreaks
                  (Utc.env "2025-12-02" None))
               (world Cached.initial)))
  = [habit "h1" (Some 0)].
Proof.
  refine (proj1 (fetchHabitsAndCalculateStreaks_without_logs
                   (Utc.env "2025-12-02" None) Cached.initial
                   (accepting [log "h1" "2025-12-02"]) "u1" [habit "h1" None]
                   eq_refl eq_refl _)).
  left. reflexivity.
Defined.

(** Without a session nothing is fetched: with no user from the
    auth call, fetchHabitsAndCalculateStreaks asks the store for nothing
    and only turns the loading flag off; with a null or empty user id in
    the hook, fetchAllLogs and fetchTodaysLogs dispatch no request and
    change nothing. *)
Theorem fetch_without_session
  (e : Env) (w : World Cached.Hook) (remote : Remote) :
  (remote _ GetUser = None ->
   run remote (Cached.fetchHabitsAndCalculateStreaks e) w
   = mkWorld (Cached.setLoading false (hook w)) (effects w)
             (sent w ++ [call GetUser])) /\
  (truthy (currentUserId e) = None ->
   run remote (Cached.fetchAllLogs e) w = w /\
   run remote (Cached.fetchTodaysLogs e) w = w).
Proof.
  split.
  - intros Hu. unfold Cached.fetchHabitsAndCalculateStreaks. simpl.
    rewrite Hu. reflexivity.
  - intros Hnone. unfold Cached.fetchAllLogs, Cached.fetchTodaysLogs.
    rewrite Hnone. split; reflexivity.
Qed.

Lemma fetch_without_session_witness :
  run offline (Cached.fetchTodaysLogs (Utc.env "2025-12-02" None))
      (world loadedDec1) = world loadedDec1.
Proof.
  exact (proj2 (proj2 (fetch_without_session (Utc.env "2025-12-02" None)
                         (world loadedDec1) offline) eq_refl)).
Defined.

(** X19: a load, a mark or an unmark that the store serves leaves the
    streaks those of the all-logs cache, whatever the state was before. *)
Theorem fresh_established
  (e : Env) (st : Cached.Hook) (habitId : string) (remote : Remote)
  (user uid : string) (habitsData : list Habit) (logs : list HabitLog)
  (newLog : HabitLog) :
  (truthy (currentUserId e) = Some user ->
   remote _ GetUser = Some uid ->
   remote _ (SelectHabits uid) = Ok habitsData ->
   remote _ (SelectLogs user) = Ok logs ->
   fresh e
     (hook (run remote (Cached.fetchHabitsAndCalculateStreaks e) (world st))))
  /\
  (remote _ (InsertLog habitId (currentUserId e) (today e)) = Ok newLog ->
   fresh e
     (hook (run remote (Cached.handleMarkComplete e st habitId) (world st))))
  /\
  (remote _ (DeleteLog habitId (currentUserId e) (today e)) = Ok tt ->
   fresh e
     (hook (run remote (Cached.handleUnmarkComplete e st habitId)
                (world st)))).
Proof.
  split; [| split].
  - intros. eapply fetchHabitsAndCalculateStreaks_fresh; eassumption.
  - intros. eapply handleMarkComplete_fresh; eassumption.
  - intros. now apply handleUnmarkComplete_fresh.
Qed.

Lemma fresh_established_witness :
  fresh dec2 (hook markedDec2).
Proof.
  exact (proj1 (proj2 (fresh_established dec2 loadedDec1 "h1"
                         (accepting [log "h1" "2025-12-01"]) "u1" "u1"
                         [] [] (log "h1" "2025-12-02"))) eq_refl).
Defined.

(** ** The card's toggle *)

(** X20: a click on a habit's card, served by the store, flips the
    habit's isCompletedToday value in both hooks, whatever the state: a
    habit shown as completed is unmarked, any other is marked. *)
Theorem toggle_flips
  (e : Env) (st : Cached.Hook) (st' : Simple.Hook) (habitId : string)
  (remote : Remote) (newLog : HabitLog) :
  remote _ (InsertLog habitId (currentUserId e) (today e)) = Ok newLog ->
  habit_id newLog = habitId ->
  remote _ (DeleteLog habitId (currentUserId e) (today e)) = Ok tt ->
  Cached.isCompletedToday
    (hook (run remote (cachedToggle e st habitId) (world st))) habitId
  = negb (Cached.isCompletedToday st habitId) /\
  Simple.isCompletedToday
    (hook (run remote (simpleToggle e st' habitId) (world st'))) habitId
  = negb (Simple.isCompletedToday st' habitId).
Proof.
  intros Hins Hh Hdel.
  unfold cachedToggle, simpleToggle, Card.handleToggleComplete.
  split.
  - destruct (Cached.isCompletedToday st habitId) eqn:Hc.
    + unfold Cached.handleUnmarkComplete. simpl. rewrite Hdel. simpl.
      unfold Cached.isCompletedToday. simpl.
      apply (existsb_filter_negb (fun l => habit_id l =? habitId)).
    + unfold Cached.handleMarkComplete. simpl. rewrite Hins. simpl.
      unfold Cached.isCompletedToday. simpl. rewrite existsb_app. simpl.
      now rewrite Hh, String.eqb_refl, orb_true_r.
  - destruct (Simple.isCompletedToday st' habitId) eqn:Hc.
    + unfold Simple.handleUnmarkComplete. simpl. rewrite Hdel. simpl.
      unfold Simple.isCompletedToday. simpl.
      apply (existsb_filter_negb (fun l => habit_id l =? habitId)).
    + unfold Simple.handleMarkComplete. simpl. rewrite Hins. simpl.
      unfold Simple.isCompletedToday. simpl. rewrite existsb_app. simpl.
      now rewrite Hh, String.eqb_refl, orb_true_r.
Qed.

Lemma toggle_flips_witness :
  Cached.isCompletedToday
    (hook (run (accepting []) (cachedToggle dec2 loadedDec1 "h1")
               (world loadedDec1))) "h1" = false.
Proof.
  exact (proj1 (toggle_flips dec2 loadedDec1 simpleDone "h1" (accepting [])
                  (log "h1" "2025-12-02") eq_refl eq_refl eq_refl)).
Defined.

(** ** The dashboard's lists and numbers *)

Section DashboardFacts.

Lemma filter_split {A : Type} (p : A -> bool) (l : list A) :
  Permutation l (filter p l ++ filter (fun x => negb (p x)) l).
Proof.
  induction l as [| x l IH]; simpl; [constructor |].
  destruct (p x); simpl.
  - now constructor.
  - now apply Permutation_cons_app.
Qed.

Lemma filter_all {A : Type} (p : A -> bool) (l : list A) :
  List.length (filter p l) = List.length l <->
  forall x, In x l -> p x = true.
Proof.
  induction l as [| x l IH]; simpl.
  - split; [intros _ y [] | reflexivity].
  - pose proof (filter_length_le p l) as Hle.
    destruct (p x) eqn:Hp; simpl; split.
    + intros Hlen y [<- | Hy]; [exact Hp |]. apply IH; [lia | exact Hy].
    + intros Hall. f_equal. apply IH. intros y Hy. apply Hall. now right.
    + intros Hlen. lia.
    + intros Hall. specialize (Hall x (or_introl eq_refl)). congruence.
Qed.

Lemma fold_max_ge (xs : list Z) :
  forall x, (x <= fold_left Z.max xs x)%Z /\
            Forall (fun y => (y <= fold_left Z.max xs x)%Z) xs /\
            In (fold_left Z.max xs x) (x :: xs).
Proof.
  induction xs as [| y xs IH]; intros x; simpl.
  - repeat split; [lia | constructor | now left].
  - destruct (IH (Z.max x y)) as (Hge & Hall & Hin).
    repeat split.
    + lia.
    + constructor; [lia | exact Hall].
    + destruct Hin as [Hin | Hin]; [| now right; right].
      rewrite <- Hin.
      destruct (Z.max_spec x y) as [[_ ->] | [_ ->]]; [right | ]; now left.
Qed.

End DashboardFacts.

(** X21: the dashboard shows every habit in exactly one of its two
    lists: today's habits and the other habits together are the hook's
    habits, rearranged, and no habit is in both. *)
Theorem dashboard_lists_partition
  (cal : Dashboard.Calendar) (habits : list Dashboard.Habit) :
  Permutation habits
    (Dashboard.todaysHabits cal habits ++ Dashboard.otherHabits cal habits) /\
  (forall h, In h (Dashboard.todaysHabits cal habits) ->
             ~ In h (Dashboard.otherHabits cal habits)).
Proof.
  split.
  - apply (filter_split (fun h => Dashboard.isHabitDueToday cal h)).
  - unfold Dashboard.todaysHabits, Dashboard.otherHabits.
    intros h Hin Hin'. apply filter_In in Hin as [_ Hdue].
    apply filter_In in Hin' as [_ Hnot]. rewrite Hdue in Hnot. discriminate.
Qed.

(** X22: the progress numbers are ordered: completedToday is at most
    totalToday, which is at most the number of habits, so the progress
    bar never passes 100 percent. *)
Theorem dashboard_progress_bounded
  (cal : Dashboard.Calendar) (isCompletedToday : string -> bool)
  (habits : list Dashboard.Habit) :
  Dashboard.completedToday cal isCompletedToday habits
  <= Dashboard.totalToday cal habits /\
  Dashboard.totalToday cal habits <= List.length habits.
Proof.
  unfold Dashboard.completedToday, Dashboard.totalToday,
    Dashboard.todaysHabits.
  split; apply filter_length_le.
Qed.

(** X23: the page replaces the cards of today's habits by "Great work!
    Come back tomorrow to keep your streaks going." exactly when it is not
    loading, some habit is due today and every habit due today is
    completed today. *)
Theorem dashboard_great_work
  (cal : Dashboard.Calendar) (loading : bool)
  (isCompletedToday : string -> bool) (habits : list Dashboard.Habit) :
  Dashboard.panel cal loading isCompletedToday habits = Dashboard.GreatWork
  <->
  loading = false /\
  Dashboard.todaysHabits cal habits <> [] /\
  forall h, In h (Dashboard.todaysHabits cal habits) ->
            isCompletedToday (Dashboard.id h) = true.
Proof.
  unfold Dashboard.panel, Dashboard.completedToday, Dashboard.totalToday.
  set (due := Dashboard.todaysHabits cal habits).
  destruct loading; [split; [discriminate | intros [H _]; discriminate] |].
  destruct due as [| h0 due'] eqn:Hdue.
  - simpl. split; [discriminate | intros (_ & H & _); now contradiction H].
  - change ((List.length (h0 :: due') =? 0)%nat) with false. cbv iota.
    rewrite <- Hdue.
    destruct (Nat.eqb_spec
                (List.length
                   (filter (fun h => isCompletedToday (Dashboard.id h)) due))
                (List.length due)) as [Hall | Hsome].
    + assert (Hpos : (0 <? List.length due)%nat = true).
      { rewrite Hdue. reflexivity. }
      rewrite Hpos. simpl. split; [| reflexivity].
      intros _. split; [reflexivity |]. split; [rewrite Hdue; discriminate |].
      now apply (filter_all (fun h => isCompletedToday (Dashboard.id h))).
    + simpl. split; [discriminate |].
      intros (_ & _ & Hall). exfalso. apply Hsome.
      now apply (filter_all (fun h => isCompletedToday (Dashboard.id h))).
Qed.

(** X24: with at least one habit, bestStreak is the largest
    current_streak and bestStreakHabit is a listed habit that has it, so
    the "Longest streak" line always has a title to show; with no habit,
    bestStreak is 0 and there is no such habit. *)
Theorem dashboard_bestStreak
  (habits : list Dashboard.Habit) :
  (habits <> [] ->
   (forall h, In h habits ->
              (Dashboard.current_streak h <= Dashboard.bestStreak habits)%Z) /\
   exists h, Dashboard.bestStreakHabit habits = Some h /\ In h habits /\
             Dashboard.current_streak h = Dashboard.bestStreak habits) /\
  (habits = [] ->
   Dashboard.bestStreak habits = 0%Z /\
   Dashboard.bestStreakHabit habits = None).
Proof.
  split; [| intros ->; split; reflexivity].
  intros Hne. destruct habits as [| h0 hs]; [now contradiction Hne |].
  unfold Dashboard.bestStreakHabit, Dashboard.bestStreak.
  set (best := match map Dashboard.current_streak (h0 :: hs) with
               | [] => 0%Z
               | x :: xs => fold_left Z.max xs x
               end).
  destruct (fold_max_ge (map Dashboard.current_streak hs)
              (Dashboard.current_streak h0)) as (Hge & Hall & Hin).
  fold best in Hge, Hall, Hin.
  split.
  - intros h [<- | Hh]; [exact Hge |].
    rewrite Forall_forall in Hall. apply Hall. now apply in_map.
  - assert (Hex : exists h, In h (h0 :: hs) /\
                            Dashboard.current_streak h = best).
    { destruct Hin as [Hin | Hin].
      - exists h0. split; [now left | exact Hin].
      - apply in_map_iff in Hin as (h & Hh & Hin).
        exists h. split; [now right | exact Hh]. }
    destruct Hex as (h & Hh & Hbest).
    destruct (find (fun x => (Dashboard.current_streak x =? best)%Z)
                (h0 :: hs)) as [found |] eqn:F.
    + apply find_some in F as [Hf Heq]. apply Z.eqb_eq in Heq.
      exists found. repeat split; assumption.
    + exfalso. apply (find_none _ _ F) in Hh.
      rewrite Hbest, Z.eqb_refl in Hh. discriminate.
Qed.

Lemma dashboard_great_work_witness :
  Dashboard.panel (Dashboard.mkCalendar 2 2 31) false (fun _ => true)
    [tracked "h1" 3] = Dashboard.GreatWork.
Proof.
  apply (proj2 (dashboard_great_work (Dashboard.mkCalendar 2 2 31) false
                  (fun _ => true) [tracked "h1" 3])).
  split; [reflexivity |]. split; [discriminate | reflexivity].
Defined.

Lemma dashboard_bestStreak_witness :
  exists h, Dashboard.bestStreakHabit [tracked "h1" 3; tracked "h2" 7] = Some h
            /\ In h [tracked "h1" 3; tracked "h2" 7]
            /\ Dashboard.current_streak h
               = Dashboard.bestStreak [tracked "h1" 3; tracked "h2" 7].
Proof.
  apply (proj1 (dashboard_bestStreak [tracked "h1" 3; tracked "h2" 7])).
  discriminate.
Defined.

(** ** The hook that reads the store's streaks *)

(** X25: in the hook that reads the store's streaks, nothing happens
    without a user id: with a null or empty id, marking, unmarking and
    both fetches dispatch no request and change nothing, and creating a
    habit only shows "You must be logged in to create a habit". *)
Theorem trigger_signed_out
  (e : Env) (w : Trigger.World Trigger.Hook) (captured : Trigger.Hook)
  (habitId : string) (formData : FormData) (remote : Trigger.Remote) :
  truthy (currentUserId e) = None ->
  Trigger.run remote (Trigger.handleMarkComplete e habitId) w = w /\
  Trigger.run remote (Trigger.handleUnmarkComplete e habitId) w = w /\
  Trigger.run remote (Trigger.fetchHabits e) w = w /\
  Trigger.run remote (Trigger.fetchTodaysLogs e) w = w /\
  Trigger.run remote (Trigger.handleCreate e captured formData) w
  = Trigger.mkWorld (Trigger.hook w)
      (Trigger.effects w ++ [Alert "You must be logged in to create a habit"])
      (Trigger.sent w).
Proof.
  intros Hnone.
  unfold Trigger.handleMarkComplete, Trigger.handleUnmarkComplete,
    Trigger.fetchHabits, Trigger.fetchTodaysLogs, Trigger.handleCreate,
    Trigger.signedIn.
  rewrite Hnone. repeat split.
Qed.

Lemma trigger_signed_out_witness :
  Trigger.run (serving 1)
    (Trigger.handleMarkComplete (Utc.env "2025-12-02" (Some "")) "h1")
    (Trigger.world triggerIdle)
  = Trigger.world triggerIdle.
Proof.
  exact (proj1 (trigger_signed_out (Utc.env "2025-12-02" (Some ""))
                  (Trigger.world triggerIdle) triggerIdle "h1" badForm
                  (serving 1) eq_refl)).
Defined.

(** X26: in that hook a served mark or unmark flips the habit's
    isCompletedToday value and then fetches the habits again: the list
    becomes the store's list when that fetch succeeds and stays as it was
    when it fails, and the loading flag ends off either way. *)
Theorem trigger_mark_unmark
  (e : Env) (st : Trigger.Hook) (habitId user : string)
  (remote : Trigger.Remote) (row : HabitLog) :
  truthy (currentUserId e) = Some user ->
  remote _ (Trigger.InsertLog habitId user (today e)) = Ok row ->
  habit_id row = habitId ->
  remote _ (Trigger.DeleteLog habitId user (today e)) = Ok tt ->
  let marked :=
    Trigger.run remote (Trigger.handleMarkComplete e habitId)
                (Trigger.world st) in
  let unmarked :=
    Trigger.run remote (Trigger.handleUnmarkComplete e habitId)
                (Trigger.world st) in
  let fetched :=
    match remote _ (Trigger.SelectHabits user) with
    | Ok data => data
    | Err _ => Trigger.habits st
    end in
  Trigger.isCompletedToday (Trigger.hook marked) habitId = true /\
  Trigger.isCompletedToday (Trigger.hook unmarked) habitId = false /\
  Trigger.habits (Trigger.hook marked) = fetched /\
  Trigger.habits (Trigger.hook unmarked) = fetched /\
  Trigger.loading (Trigger.hook marked) = false /\
  Trigger.loading (Trigger.hook unmarked) = false /\
  Trigger.sent marked
  = [Trigger.call (Trigger.InsertLog habitId user (today e));
     Trigger.call (Trigger.SelectHabits user)] /\
  Trigger.sent unmarked
  = [Trigger.call (Trigger.DeleteLog habitId user (today e));
     Trigger.call (Trigger.SelectHabits user)].
Proof.
  intros Hu Hins Hh Hdel. cbv zeta.
  unfold Trigger.handleMarkComplete, Trigger.handleUnmarkComplete,
    Trigger.fetchHabits, Trigger.signedIn.
  rewrite Hu. simpl. rewrite Hins, Hdel. simpl.
  assert (Hdone : existsb (fun l => habit_id l =? habitId)
                    (Trigger.habitLogs st ++ [row]) = true).
  { rewrite existsb_app. simpl.
    now rewrite Hh, String.eqb_refl, orb_true_r. }
  pose proof (existsb_filter_negb (fun l : HabitLog => habit_id l =? habitId)
                (Trigger.habitLogs st)) as Hgone.
  destruct (remote _ (Trigger.SelectHabits user)) as [data | code]; simpl;
    unfold Trigger.isCompletedToday; simpl; repeat split; assumption.
Qed.

Lemma trigger_mark_unmark_witness :
  Trigger.habits
    (Trigger.hook (Trigger.run (serving 1)
                     (Trigger.handleMarkComplete dec2 "h1")
                     (Trigger.world triggerIdle)))
  = [tracked "h1" 1].
Proof.
  pose proof (trigger_mark_unmark dec2 triggerIdle "h1" "u1" (serving 1)
                (log "h1" "2025-12-02") eq_refl eq_refl eq_refl eq_refl) as H.
  cbv zeta in H. destruct H as (_ & _ & H & _). exact H.
Defined.

(** X27: in that hook a refused mark changes nothing and fetches
    nothing: the only request is the insert, and the user is told
    "You've already completed this habit today!" for the duplicate code
    and "Failed to log habit completion" for any other. *)
Theorem trigger_mark_refused
  (e : Env) (st : Trigger.Hook) (habitId user code : string)
  (remote : Trigger.Remote) :
  truthy (currentUserId e) = Some user ->
  remote _ (Trigger.InsertLog habitId user (today e)) = Err code ->
  let done :=
    Trigger.run remote (Trigger.handleMarkComplete e habitId)
                (Trigger.world st) in
  Trigger.hook done = st /\
  Trigger.sent done
  = [Trigger.call (Trigger.InsertLog habitId user (today e))] /\
  Trigger.effects done
  = if code =? "23505"
    then [Alert "You've already completed this habit today!"]
    else [ConsoleError "Error logging habit:";
          Alert "Failed to log habit completion"].
Proof.
  intros Hu Herr. cbv zeta.
  unfold Trigger.handleMarkComplete, Trigger.signedIn.
  rewrite Hu. simpl. rewrite Herr.
  destruct (code =? "23505"); simpl; repeat split.
Qed.

(** X28: in that hook a confirmed and served delete removes the habit
    and every log of it from today's logs, so isCompletedToday answers
    false for it, and leaves the isCompletedToday value of every other
    habit as it was. *)
Theorem trigger_handleDelete_purges
  (w : Trigger.World Trigger.Hook) (habitId : string)
  (remote : Trigger.Remote) :
  remote _ (Trigger.Confirm
    "Are you sure? This will delete the habit and all completion logs.")
  = true ->
  remote _ (Trigger.DeleteHabit habitId) = Ok tt ->
  let done :=
    Trigger.hook (Trigger.run remote (Trigger.handleDelete habitId) w) in
  (forall h, In h (Trigger.habits done) -> Dashboard.id h <> habitId) /\
  (forall l, In l (Trigger.habitLogs done) -> habit_id l <> habitId) /\
  Trigger.isCompletedToday done habitId = false /\
  (forall other, other <> habitId ->
     Trigger.isCompletedToday done other
     = Trigger.isCompletedToday (Trigger.hook w) other).
Proof.
  intros Hyes Hok. cbv zeta. unfold Trigger.handleDelete. simpl.
  rewrite Hyes. simpl. rewrite Hok. simpl.
  split; [| split; [| split]].
  - intros h Hin. apply filter_In in Hin as [_ Hneq].
    now apply negb_true_iff, String.eqb_neq in Hneq.
  - intros l Hin. apply filter_In in Hin as [_ Hneq].
    now apply negb_true_iff, String.eqb_neq in Hneq.
  - apply (existsb_filter_negb (fun l : HabitLog => habit_id l =? habitId)).
  - intros other Hneq. unfold Trigger.isCompletedToday. simpl.
    now apply existsb_filter_other.
Qed.

Lemma trigger_mark_refused_witness :
  Trigger.effects
    (Trigger.run (refusing "23505") (Trigger.handleMarkComplete dec2 "h1")
                 (Trigger.world triggerIdle))
  = [Alert "You've already completed this habit today!"].
Proof.
  pose proof (trigger_mark_refused dec2 triggerIdle "h1" "u1" "23505"
                (refusing "23505") eq_refl eq_refl) as H.
  cbv zeta in H. destruct H as (_ & _ & H). exact H.
Defined.

Lemma trigger_handleDelete_purges_witness :
  Trigger.isCompletedToday
    (Trigger.hook (Trigger.run (serving 0) (Trigger.handleDelete "h1")
                     (Trigger.world
                        (Trigger.mkHook [tracked "h1" 1]
                                        [log "h1" "2025-12-02"] false))))
    "h1" = false.
Proof.
  pose proof (trigger_handleDelete_purges
                (Trigger.world (Trigger.mkHook [tracked "h1" 1]
                                  [log "h1" "2025-12-02"] false))
                "h1" (serving 0) eq_refl eq_refl) as H.
  cbv zeta in H. destruct H as (_ & _ & H & _). exact H.
Defined.

(** [cached_handleDelete_purges] at a state where "h1" is listed and
    completed. *)
Lemma cached_handleDelete_purges_witness :
  Cached.isCompletedToday
    (hook (run (accepting []) (Cached.handleDelete "h1") (world loadedDec1)))
    "h1" = false.
Proof.
  pose proof (cached_handleDelete_purges (world loadedDec1) "h1"
                (accepting []) eq_refl eq_refl) as H.
  cbv zeta in H. destruct H as (_ & _ & _ & _ & H). exact H.
Defined.

(** ** A day of 23 hours *)

Example days_from_civil_mar9 : Utc.days_from_civil 2025 3 9 = 20156%Z.
Proof. reflexivity. Qed.

(** New York's midnights around the change: 2025-03-09 began at 05:00 UTC
    and 2025-03-10 at 04:00 UTC, 23 hours later. *)
Example newYork_midnights :
  map NewYork.midnightOf ["2025-03-08"; "2025-03-09"; "2025-03-10"]
  = [Some (20155 * 86400000 + 5 * 3600000)%Z;
     Some (20156 * 86400000 + 5 * 3600000)%Z;
     Some (20157 * 86400000 + 4 * 3600000)%Z].
Proof. vm_compute. reflexivity. Qed.

(** C4 on a clock with a 23-hour day: in New York on 2025-03-10, with the
    habit completed on 2025-03-10, 2025-03-09 and 2025-03-08, an unbroken
    run of three consecutive calendar days ending today, [calculateStreak]
    returns 1 and not 3.  Yesterday's midnight is 23 hours back, the
    floor of 23/24 is 0, and the loop, which expects 1, breaks. *)
Theorem calculateStreak_spring_forward :
  habitDates "h1" springRun = ["2025-03-10"; "2025-03-09"; "2025-03-08"] /\
  map Utc.midnightOf (habitDates "h1" springRun)
  = [Some (20157 * 86400000)%Z; Some (20156 * 86400000)%Z;
     Some (20155 * 86400000)%Z] /\
  map (daysDiff mar10) (habitDates "h1" springRun)
  = [Some 0%Z; Some 0%Z; Some 1%Z] /\
  calculateStreak mar10 "h1" springRun = 1 /\
  calculateStreak mar10 "h1" springRun
  <> List.length (habitDates "h1" springRun).
Proof. vm_compute. repeat split. discriminate. Qed.

(** The same day without a completion for today: yesterday counts as
    0 days back and the streak is 2, and the day after, the completions of
    03-11, 03-10 and 03-08 make a streak of 3 around the missing 03-09. *)
Example calculateStreak_after_spring_forward :
  calculateStreak mar10 "h1" [log "h1" "2025-03-09"; log "h1" "2025-03-08"]
  = 2 /\
  map (daysDiff mar11) ["2025-03-11"; "2025-03-10"; "2025-03-09"; "2025-03-08"]
  = [Some 0%Z; Some 1%Z; Some 1%Z; Some 2%Z] /\
  calculateStreak mar11 "h1"
    [log "h1" "2025-03-11"; log "h1" "2025-03-10"; log "h1" "2025-03-08"] = 3.
Proof. vm_compute. repeat split. Qed.
